(** * jsonembed/search-collection.py: the QueryProcessor retrieval orchestrator

    A shallow embedding of [QueryProcessor] (filter extraction, follow-up
    heuristic, retrieval-query construction, vector-search pipeline
    construction, LLM history handling and [retrieve_aggregate_facts]),
    followed by the properties proved about it.

    Conventions of the model.
    - Python [str] values are Rocq [string]s; a character is a code point
      below 256 (Latin-1).  Within that range [\d] is [0-9], the
      case-insensitive match of an ASCII letter is its two ASCII cases, and
      [str.strip] removes the code points 9-13, 28-32, 133 and 160.
    - Python [int] is [Z], and [int(str)] refuses more than 4300 digits
      as CPython does by default; similarity scores are rationals (every finite
      double is one, and the literal 0.50 is exactly 1/2).
    - [print] and [time.time] calls are omitted: they do not influence any
      value the orchestrator computes.
    - The three remote services (VoyageAI embeddings, the MongoDB collection,
      the OpenAI chat endpoint) are not executed: a method is a tree of
      requests whose continuation receives the service's reply, and a
      [World] supplies replies when such a tree is run.  A client call that
      raises is a reply of [None]; the exception then travels up to the
      nearest [try] exactly as in the source.
    - Lists are values: the identity of the list object passed as
      [history] (which the source also mutates in place) is not tracked.
    - [__init__] only reads configuration; the three strings it stores
      ([openai_model], [voyage_model], [vector_index]) are fields of the
      state; [_get_setting] and the two methods that validate the MongoDB
      settings are modelled over the [settings] module as a list of
      attributes.  The interactive loop [run] is modelled on the lines
      typed before the interrupt; [main] is not modelled. *)

From Stdlib Require Import String Ascii List ZArith QArith Bool Arith Lia.
Import ListNotations.

Set Warnings "-register-all".

Local Open Scope string_scope.
Local Open Scope list_scope.
Local Open Scope nat_scope.

(** ** Python text primitives used by the source *)

Module Text.

Definition code (c : ascii) : nat := nat_of_ascii c.

(** [\d] on code points below 256. *)
Definition is_digit (c : ascii) : bool :=
  (48 <=? code c) && (code c <=? 57).

(** [str.isspace] on code points below 256. *)
Definition is_space (c : ascii) : bool :=
  let n := code c in
  ((9 <=? n) && (n <=? 13)) || ((28 <=? n) && (n <=? 32))
  || (n =? 133) || (n =? 160).

(** [str.lower] on one code point below 256. *)
Definition lower_char (c : ascii) : ascii :=
  let n := code c in
  if ((65 <=? n) && (n <=? 90))
     || ((192 <=? n) && (n <=? 222) && negb (n =? 215))
  then ascii_of_nat (n + 32) else c.

Fixpoint lower (s : string) : string :=
  match s with
  | EmptyString => EmptyString
  | String c s' => String (lower_char c) (lower s')
  end.

Fixpoint lstrip (s : string) : string :=
  match s with
  | EmptyString => EmptyString
  | String c s' => if is_space c then lstrip s' else s
  end.

Fixpoint rstrip (s : string) : string :=
  match s with
  | EmptyString => EmptyString
  | String c s' =>
      match rstrip s' with
      | EmptyString => if is_space c then EmptyString else String c EmptyString
      | r => String c r
      end
  end.

(** [s.strip()] *)
Definition strip (s : string) : string := rstrip (lstrip s).

(** [p in s] *)
Fixpoint contains (p s : string) : bool :=
  if prefix p s then true
  else match s with
       | EmptyString => false
       | String _ s' => contains p s'
       end.

(** [s.split(",", 1)[0]] *)
Fixpoint before_comma (s : string) : string :=
  match s with
  | EmptyString => EmptyString
  | String c s' => if Ascii.eqb c "," then EmptyString
                   else String c (before_comma s')
  end.

(** [sep.join(l)] *)
Definition join (sep : string) (l : list string) : string :=
  String.concat sep l.

Definition digit_val (c : ascii) : Z := Z.of_nat (code c - 48).

Fixpoint int_acc (acc : Z) (s : string) : option Z :=
  match s with
  | EmptyString => Some acc
  | String c s' => if is_digit c then int_acc (10 * acc + digit_val c) s'
                   else None
  end.

(** [sys.int_info.default_max_str_digits]: the longest digit string that
    [int] converts under CPython's default configuration (3.11 and later;
    leading zeros count). *)
Definition int_max_str_digits : nat := 4300.

(** [int(s)] for a string of decimal digits; [None] is [ValueError],
    raised for the empty string, for a character that is not a digit and
    for more than [int_max_str_digits] digits. *)
Definition py_int (s : string) : option Z :=
  match s with
  | EmptyString => None
  | _ => if int_max_str_digits <? String.length s then None
         else int_acc 0 s
  end.

(** [seq[start:]] with Python's treatment of negative and out-of-range
    start indices. *)
Definition slice_from {A : Type} (start : Z) (l : list A) : list A :=
  let n := Z.of_nat (length l) in
  let i := if (start <? 0)%Z then Z.max (n + start) 0 else Z.min start n in
  skipn (Z.to_nat i) l.

End Text.

(** ** The regular expressions of [extract_filters]

    Every pattern of the source has the shape [(?i)LITERAL(CLASS QUANT)]:
    a literal matched without regard to case, then one capture group made
    of a character class repeated either a fixed number of times or
    greedily one or more times.  Nothing follows the group, so the greedy
    repetition is the maximal run and no backtracking arises. *)

Module Re.
Import Text.

Inductive Quant : Type :=
| Exactly (n : nat)
| OneOrMore.

Record Pattern : Type := mkPattern {
  lit : string;
  cls : ascii -> bool;
  quant : Quant
}.

(** Match the literal at the start of [s]; the rest of [s] on success. *)
Fixpoint match_lit (l s : string) : option string :=
  match l, s with
  | EmptyString, _ => Some s
  | String _ _, EmptyString => None
  | String a l', String b s' =>
      if Ascii.eqb (lower_char a) (lower_char b) then match_lit l' s' else None
  end.

Fixpoint take_exactly (n : nat) (f : ascii -> bool) (s : string)
  : option string :=
  match n with
  | O => Some EmptyString
  | S n' =>
      match s with
      | EmptyString => None
      | String c s' =>
          if f c then
            match take_exactly n' f s' with
            | Some g => Some (String c g)
            | None => None
            end
          else None
      end
  end.

Fixpoint take_while (f : ascii -> bool) (s : string) : string :=
  match s with
  | EmptyString => EmptyString
  | String c s' => if f c then String c (take_while f s') else EmptyString
  end.

Definition match_group (p : Pattern) (rest : string) : option string :=
  match quant p with
  | Exactly n => take_exactly n (cls p) rest
  | OneOrMore =>
      match take_while (cls p) rest with
      | EmptyString => None
      | g => Some g
      end
  end.

(** The pattern anchored at the start of [s]: group 1 on success. *)
Definition match_at (p : Pattern) (s : string) : option string :=
  match match_lit (lit p) s with
  | Some rest => match_group p rest
  | None => None
  end.

(** [re.search(p, s)], reduced to [match.group(1)]: the leftmost match. *)
Fixpoint search (p : Pattern) (s : string) : option string :=
  match match_at p s with
  | Some g => Some g
  | None =>
      match s with
      | EmptyString => None
      | String _ s' => search p s'
      end
  end.

(** The class of the country and market patterns: any character except
    the double quote (code 34) and the space. *)
Definition not_quote_space (c : ascii) : bool :=
  negb (Ascii.eqb c "034"%char || Ascii.eqb c " "%char).

End Re.

(** ** Data model *)

(** BSON / JSON values, as far as the orchestrator looks into them. *)
Inductive value : Type :=
| VStr (s : string)
| VInt (n : Z)
| VNum (q : Q)
| VArr (l : list value)
| VDoc (d : list (string * value)).

(** A MongoDB document (a Python [dict]): keys in insertion order. *)
Definition doc : Type := list (string * value).

(** [d.get(key)] *)
Fixpoint dict_get (key : string) (d : doc) : option value :=
  match d with
  | [] => None
  | (k, v) :: d' => if String.eqb k key then Some v else dict_get key d'
  end.

(** [d.pop(key, None)], keeping only the dictionary that remains. *)
Definition dict_pop (key : string) (d : doc) : doc :=
  filter (fun kv => negb (String.eqb (fst kv) key)) d.

(** One message of the OpenAI-format history:
    [{"role": ..., "content": ...}]. *)
Record Turn : Type := mkTurn { role : string; content : string }.

(** One extracted [(field, value)] pair. *)
Definition Filter : Type := (string * value)%type.

(** What [extract_filters] returns when it returns a tuple. *)
Definition Extraction : Type := (list Filter * bool)%type.

Definition vector : Type := list Q.

(** The [filter] entry of [$vectorSearch]: [{k: v}] or
    [{"$and": [{k: v}, ...]}]. *)
Inductive Query : Type :=
| QEq (k : string) (v : value)
| QAnd (qs : list Query).

Record VectorSearch : Type := mkVectorSearch {
  vs_index : string;
  vs_path : string;
  vs_queryVector : vector;
  vs_limit : Z;
  vs_numCandidates : Z;
  vs_filter : option Query
}.

Inductive Projection : Type :=
| Exclude
| Meta (name : string).

Inductive Stage : Type :=
| SVectorSearch (vs : VectorSearch)
| SProject (fields : list (string * Projection))
| SSort (field : string) (direction : Z).

Inductive Error : Type :=
| ValueError
| IndexError
| TypeError
| ServiceError.

(** The result of a pure computation that may raise. *)
Inductive Exc (A : Type) : Type :=
| Ok (a : A)
| Throw (e : Error).
Arguments Ok {A} a.
Arguments Throw {A} e.

(** The mutable attributes of a [QueryProcessor] instance, with the three
    configuration strings read in [__init__]. *)
Record QueryProcessor : Type := mkQueryProcessor {
  history : option (list Turn);
  last_results : option (list string);
  last_question : option string;
  last_filters : option Extraction;
  openai_model : string;
  voyage_model : string;
  vector_index : string
}.

Definition set_history (h : option (list Turn)) (self : QueryProcessor)
  : QueryProcessor :=
  {| history := h;
     last_results := last_results self;
     last_question := last_question self;
     last_filters := last_filters self;
     openai_model := openai_model self;
     voyage_model := voyage_model self;
     vector_index := vector_index self |}.

Definition set_last (r : option (list string)) (q : option string)
  (f : option Extraction) (self : QueryProcessor) : QueryProcessor :=
  {| history := history self;
     last_results := r;
     last_question := q;
     last_filters := f;
     openai_model := openai_model self;
     voyage_model := voyage_model self;
     vector_index := vector_index self |}.

(** Python truthiness of an [Optional[list]] and of an [Optional[str]]. *)
Definition truthy_list {A : Type} (l : option (list A)) : bool :=
  match l with
  | Some (_ :: _) => true
  | _ => false
  end.

Definition truthy_str (s : option string) : option string :=
  match s with
  | Some (String c r) => Some (String c r)
  | _ => None
  end.

Definition list_of {A : Type} (l : option (list A)) : list A :=
  match l with
  | Some x => x
  | None => []
  end.

(** ** Requests to the remote services

    [Prog A] is a computation that ends with an [A] after finitely many
    requests.  A reply of [None] means that the client call raised. *)

Inductive Prog (A : Type) : Type :=
| Ret (a : A)
| Embed (model text : string) (k : option vector -> Prog A)
| Aggregate (pipeline : list Stage) (k : option (list doc) -> Prog A)
| FindOne (query : doc) (k : option (option doc) -> Prog A)
| Chat (model : string) (messages : list Turn) (temperature : Q)
       (max_tokens : Z) (k : option (option string) -> Prog A).
Arguments Ret {A} a.
Arguments Embed {A} model text k.
Arguments Aggregate {A} pipeline k.
Arguments FindOne {A} query k.
Arguments Chat {A} model messages temperature max_tokens k.

Fixpoint pbind {A B : Type} (p : Prog A) (f : A -> Prog B) : Prog B :=
  match p with
  | Ret a => f a
  | Embed m t k => Embed m t (fun r => pbind (k r) f)
  | Aggregate pl k => Aggregate pl (fun r => pbind (k r) f)
  | FindOne q k => FindOne q (fun r => pbind (k r) f)
  | Chat m ms t mt k => Chat m ms t mt (fun r => pbind (k r) f)
  end.

(** How a method call ends: normally with a value, or with an exception;
    either way the instance is left in some state. *)
Inductive Outcome (A : Type) : Type :=
| Normal (a : A) (self : QueryProcessor)
| Raised (e : Error) (self : QueryProcessor).
Arguments Normal {A} a self.
Arguments Raised {A} e self.

(** A method of [QueryProcessor]. *)
Definition M (A : Type) : Type := QueryProcessor -> Prog (Outcome A).

Definition ret {A : Type} (a : A) : M A := fun self => Ret (Normal a self).

Definition bind {A B : Type} (m : M A) (f : A -> M B) : M B :=
  fun self =>
    pbind (m self) (fun o =>
      match o with
      | Normal a self' => f a self'
      | Raised e self' => Ret (Raised e self')
      end).

Definition raise {A : Type} (e : Error) : M A :=
  fun self => Ret (Raised e self).

Definition get_self : M QueryProcessor := fun self => Ret (Normal self self).

Definition modify (f : QueryProcessor -> QueryProcessor) : M unit :=
  fun self => Ret (Normal tt (f self)).

Definition lift_exc {A : Type} (x : Exc A) : M A :=
  match x with
  | Ok a => ret a
  | Throw e => raise e
  end.

(** [try: body / except Exception: handler] *)
Definition try_except {A : Type} (body : M A) (handler : Error -> M A)
  : M A :=
  fun self =>
    pbind (body self) (fun o =>
      match o with
      | Normal a self' => Ret (Normal a self')
      | Raised e self' => handler e self'
      end).

Declare Scope method_scope.
Delimit Scope method_scope with method.
Notation "x <- m ;; k" := (bind m (fun x => k))
  (at level 61, m at next level, right associativity) : method_scope.
Notation "m ;;; k" := (bind m (fun _ => k))
  (at level 61, right associativity) : method_scope.
Local Open Scope method_scope.

Definition call_embed (model text : string) : M vector :=
  fun self => Embed model text (fun r =>
    match r with
    | Some v => Ret (Normal v self)
    | None => Ret (Raised ServiceError self)
    end).

Definition call_aggregate (pipeline : list Stage) : M (list doc) :=
  fun self => Aggregate pipeline (fun r =>
    match r with
    | Some l => Ret (Normal l self)
    | None => Ret (Raised ServiceError self)
    end).

Definition call_find_one (query : doc) : M (option doc) :=
  fun self => FindOne query (fun r =>
    match r with
    | Some d => Ret (Normal d self)
    | None => Ret (Raised ServiceError self)
    end).

Definition call_chat (model : string) (messages : list Turn)
  (temperature : Q) (max_tokens : Z) : M (option string) :=
  fun self => Chat model messages temperature max_tokens (fun r =>
    match r with
    | Some c => Ret (Normal c self)
    | None => Ret (Raised ServiceError self)
    end).

(** ** The methods of [QueryProcessor] *)

Definition nl : string := String "010"%char EmptyString.

(** The five patterns of [extract_filters], in source order:
    [(?i)id=(\d{8})], [(?i)country=(CLASS+)], [(?i)market=(CLASS+)],
    [(?i)beds=(\d+)], [(?i)bedrooms=(\d+)], where CLASS excludes the
    double quote and the space. *)
Definition id_pattern : Re.Pattern :=
  Re.mkPattern "id=" Text.is_digit (Re.Exactly 8).
Definition country_pattern : Re.Pattern :=
  Re.mkPattern "country=" Re.not_quote_space Re.OneOrMore.
Definition market_pattern : Re.Pattern :=
  Re.mkPattern "market=" Re.not_quote_space Re.OneOrMore.
Definition beds_pattern : Re.Pattern :=
  Re.mkPattern "beds=" Text.is_digit Re.OneOrMore.
Definition bedrooms_pattern : Re.Pattern :=
  Re.mkPattern "bedrooms=" Text.is_digit Re.OneOrMore.

Definition _split_filters (pattern : Re.Pattern) (question : string)
  : option string :=
  match Re.search pattern question with
  | Some temp => Some (Text.before_comma temp)
  | None => None
  end.

(** [filters.append((field, int(match)))] when [match] is truthy. *)
Definition append_int (filters : list Filter) (field : string)
  (m : option string) : Exc (list Filter) :=
  match truthy_str m with
  | Some s =>
      match Text.py_int s with
      | Some n => Ok (filters ++ [(field, VInt n)])
      | None => Throw ValueError
      end
  | None => Ok filters
  end.

(** [filters.append((field, match))] when [match] is truthy. *)
Definition append_str (filters : list Filter) (field : string)
  (m : option string) : list Filter :=
  match truthy_str m with
  | Some s => filters ++ [(field, VStr s)]
  | None => filters
  end.

Definition extract_filters (question : string) : Exc (option Extraction) :=
  let filters : list Filter := [] in
  match truthy_str (_split_filters id_pattern question) with
  | Some m => Ok (Some (filters ++ [("_id", VStr m)], true))
  | None =>
      let filters :=
        append_str filters "address.country_code"
                   (_split_filters country_pattern question) in
      let filters :=
        append_str filters "address.market"
                   (_split_filters market_pattern question) in
      match append_int filters "beds"
                       (_split_filters beds_pattern question) with
      | Throw e => Throw e
      | Ok filters =>
          match append_int filters "bedrooms"
                           (_split_filters bedrooms_pattern question) with
          | Throw e => Throw e
          | Ok filters =>
              match filters with
              | [] => Ok None
              | _ :: _ => Ok (Some (filters, false))
              end
          end
      end
  end.

Definition followup_phrases : list string :=
  [ "these"; "those"; "them"; "it"; "pricing"; "price"; "cost"; "how much";
    "what about"; "and what"; "compare"; "which one"; "cheapest";
    "most expensive"; "more details"; "tell me more"; "amenities";
    "availability"; "location" ].

Definition _is_followup (question : string) : bool :=
  let q := Text.lower (Text.strip question) in
  existsb (fun p => Text.contains p q) followup_phrases.

Definition render_turn (m : Turn) : string :=
  (role m ++ ": " ++ content m)%string.

Definition _build_retrieval_query (self : QueryProcessor) (question : string)
  (max_messages : Z) : string :=
  match history self with
  | None | Some [] => question
  | Some h =>
      let recent := Text.slice_from (- max_messages)%Z h in
      let convo := Text.join nl (map render_turn recent) in
      Text.strip ("Conversation context:" ++ nl ++ convo ++ nl ++ nl
                  ++ "Current question:" ++ nl ++ question)%string
  end.

Definition projection : list (string * Projection) :=
  [ ("embedding", Exclude); ("images", Exclude); ("host", Exclude);
    ("neighborhood_overview", Exclude); ("summary", Exclude);
    ("space", Exclude); ("transit", Exclude); ("access", Exclude);
    ("score", Meta "vectorSearchScore") ].

(** The [match_filter] of [search_similar_documents], for a non-empty
    filter list. *)
Definition match_filter (filters : list Filter) : Exc Query :=
  if 1 <? length filters then
    Ok (QAnd (map (fun kv => QEq (fst kv) (snd kv)) filters))
  else
    match filters with
    | (k, v) :: _ => Ok (QEq k v)
    | [] => Throw IndexError
    end.

Definition build_pipeline (self : QueryProcessor) (query_vector : vector)
  (filters : option (list Filter)) (limit candidates : Z)
  : Exc (list Stage) :=
  let stages (f : option Query) :=
    [ SVectorSearch
        {| vs_index := vector_index self;
           vs_path := "embedding";
           vs_queryVector := query_vector;
           vs_limit := limit;
           vs_numCandidates := candidates;
           vs_filter := f |};
      SProject projection;
      SSort "score" (-1)%Z ] in
  if truthy_list filters then
    match match_filter (list_of filters) with
    | Ok q => Ok (stages (Some q))
    | Throw e => Throw e
    end
  else Ok (stages None).

(** [x >= min_score] for the value found under ["score"]; [None] is the
    [TypeError] Python raises when [x] is not a number. *)
Definition score_ge (x : value) (min_score : Q) : option bool :=
  match x with
  | VNum q => Some (Qle_bool min_score q)
  | VInt n => Some (Qle_bool min_score (inject_Z n))
  | _ => None
  end.

(** [result.get("score", 0)] *)
Definition score_of (result : doc) : value :=
  match dict_get "score" result with
  | Some x => x
  | None => VInt 0
  end.

(** [content or ""] *)
Definition content_or_empty (c : option string) : string :=
  match c with
  | Some s => s
  | None => ""
  end.

(** The defaults in the signature of [search_similar_documents]. *)
Definition default_limit : Z := 5%Z.
Definition default_candidates : Z := 400%Z.
Definition default_min_score : Q := (1 # 2)%Q.

Section Methods.

(** [bson.json_util.dumps], a library function the orchestrator only
    applies. *)
Variable dumps : doc -> string.

(** The loop over the aggregation cursor. *)
Fixpoint collect (min_score : Q) (results : list doc) (output : list string)
  : Exc (list string) :=
  match results with
  | [] => Ok output
  | result :: rest =>
      match score_ge (score_of result) min_score with
      | Some true => collect min_score rest (output ++ [dumps result])
      | Some false => collect min_score rest output
      | None => Throw TypeError
      end
  end.

Definition search_similar_documents (query_vector : vector)
  (filters : option (list Filter)) (limit candidates : Z) (min_score : Q)
  : M (list string) :=
  self <- get_self ;;
  pipeline <- lift_exc (build_pipeline self query_vector filters
                                       limit candidates) ;;
  results <- call_aggregate pipeline ;;
  lift_exc (collect min_score results []).

Definition generate_embedding (text : string) : M vector :=
  self <- get_self ;;
  call_embed (voyage_model self) text.

Definition _invoke_openai (prompt : string) : M string :=
  self <- get_self ;;
  (match history self with
   | None => modify (set_history (Some []))
   | Some _ => ret tt
   end) ;;;
  modify (fun self =>
    set_history (Some (list_of (history self) ++ [mkTurn "user" prompt]))
                self) ;;;
  self <- get_self ;;
  c <- call_chat (openai_model self) (list_of (history self))
                 (3 # 10)%Q 800%Z ;;
  let assistant_message := content_or_empty c in
  modify (fun self =>
    set_history
      (Some (list_of (history self) ++ [mkTurn "assistant" assistant_message]))
      self) ;;;
  ret assistant_message.

Definition query_llm (question : string) (hist : option (list Turn))
  : M (string * option (list Turn)) :=
  (if truthy_list hist then modify (set_history hist) else ret tt) ;;;
  assistant_message <- _invoke_openai question ;;
  self <- get_self ;;
  ret (assistant_message, history self).

Definition grounding_prompt (context question : string) : string :=
  ("Use the following context to answer the question." ++ nl
   ++ "Context:" ++ nl ++ context ++ nl ++ nl
   ++ "Question:" ++ nl ++ question)%string.

(** The sliding window applied after a synthesis:
    [if self.history and len(self.history) > 8: self.history =
    self.history[-6:]]. *)
Definition truncate_history (h : option (list Turn))
  : option (list Turn) :=
  if truthy_list h && (8 <? length (list_of h))
  then Some (Text.slice_from (-6)%Z (list_of h))
  else h.

(** The [try] / [except] block around [query_llm], shared verbatim by the
    reuse path and the fresh-retrieval path. *)
Definition synthesize (prompt response_message : string) : M string :=
  try_except
    (self <- get_self ;;
     r <- query_llm prompt (history self) ;;
     modify (fun self => set_history (truncate_history (history self)) self) ;;;
     ret (fst r))
    (fun _ => modify (set_history None) ;;; ret response_message).

Definition no_context : string := "no context from vectors".

Definition has_explicit_filter (filters : option Extraction) : bool :=
  match filters with
  | Some (fs, direct) => direct || (0 <? length fs)
  | None => false
  end.

Definition is_direct (filters : option Extraction) : bool :=
  match filters with
  | Some (_, direct) => direct
  | None => false
  end.

(** Step 3 of [retrieve_aggregate_facts]: the value of [mongo_results]. *)
Definition fresh_retrieval (question : string) (filters : option Extraction)
  : M (option (list string)) :=
  if is_direct filters then
    match filters with
    | Some ((_, value) :: _, _) =>
        d <- call_find_one [("_id", value)] ;;
        match d with
        | Some (f :: fs) => ret (Some [dumps (dict_pop "embedding" (f :: fs))])
        | _ => ret None
        end
    | _ => raise IndexError
    end
  else
    let filter_list := match filters with
                       | Some (fs, _) => Some fs
                       | None => None
                       end in
    self <- get_self ;;
    let retrieval_query := _build_retrieval_query self question 4%Z in
    query_vector <- generate_embedding retrieval_query ;;
    r <- search_similar_documents query_vector filter_list 5%Z 400%Z
                                  default_min_score ;;
    ret (Some r).

Definition retrieve_aggregate_facts (question : string)
  (hist : option (list Turn)) : M (string * option (list Turn)) :=
  (match hist with
   | Some h => modify (set_history (Some h))
   | None => ret tt
   end) ;;;
  let response_message := no_context in
  filters <- lift_exc (extract_filters question) ;;
  self <- get_self ;;
  if truthy_list (last_results self) && _is_followup question
     && negb (has_explicit_filter filters)
  then
    let context := Text.join nl (list_of (last_results self)) in
    let prompt := grounding_prompt context question in
    response_message <- synthesize prompt response_message ;;
    self <- get_self ;;
    ret (response_message, history self)
  else
    mongo_results <- fresh_retrieval question filters ;;
    if truthy_list mongo_results then
      modify (set_last mongo_results (Some question) filters) ;;;
      let context := Text.join nl (list_of mongo_results) in
      let prompt := grounding_prompt context question in
      response_message <- synthesize prompt response_message ;;
      self <- get_self ;;
      ret (response_message, history self)
    else
      self <- get_self ;;
      ret (response_message, history self).

End Methods.

(** ** Running a method against the remote services *)

(** One exchange with a service: the request and the reply it got
    ([None]: the client call raised). *)
Inductive Event : Type :=
| EvEmbed (model text : string) (reply : option vector)
| EvAggregate (pipeline : list Stage) (reply : option (list doc))
| EvFindOne (query : doc) (reply : option (option doc))
| EvChat (model : string) (messages : list Turn) (temperature : Q)
         (max_tokens : Z) (reply : option (option string)).

Inductive Service : Type :=
| OfEmbedding
| OfVectorSearch
| OfLookup
| OfGeneration.

Definition service_of (e : Event) : Service :=
  match e with
  | EvEmbed _ _ _ => OfEmbedding
  | EvAggregate _ _ => OfVectorSearch
  | EvFindOne _ _ => OfLookup
  | EvChat _ _ _ _ _ => OfGeneration
  end.

Definition same_service (a b : Service) : bool :=
  match a, b with
  | OfEmbedding, OfEmbedding => true
  | OfVectorSearch, OfVectorSearch => true
  | OfLookup, OfLookup => true
  | OfGeneration, OfGeneration => true
  | _, _ => false
  end.

(** Number of calls a trace makes to one service. *)
Definition calls (s : Service) (trace : list Event) : nat :=
  length (filter (fun e => same_service s (service_of e)) trace).

(** The remote services: each reply may depend on everything that happened
    before, kept in a state of type [W]. *)
Record World (W : Type) : Type := mkWorld {
  on_embed : W -> string -> string -> option vector * W;
  on_aggregate : W -> list Stage -> option (list doc) * W;
  on_find_one : W -> doc -> option (option doc) * W;
  on_chat : W -> string -> list Turn -> Q -> Z -> option (option string) * W
}.
Arguments on_embed {W} _ _ _ _.
Arguments on_aggregate {W} _ _ _.
Arguments on_find_one {W} _ _ _.
Arguments on_chat {W} _ _ _ _ _ _.

(** The value a computation ends with, the exchanges it had (oldest
    first), and the services' final state. *)
Fixpoint run {W A : Type} (world : World W) (p : Prog A) (w : W)
  : A * list Event * W :=
  match p with
  | Ret a => (a, [], w)
  | Embed m t k =>
      let (r, w1) := on_embed world w m t in
      let '(a, tr, w2) := run world (k r) w1 in
      (a, EvEmbed m t r :: tr, w2)
  | Aggregate pl k =>
      let (r, w1) := on_aggregate world w pl in
      let '(a, tr, w2) := run world (k r) w1 in
      (a, EvAggregate pl r :: tr, w2)
  | FindOne q k =>
      let (r, w1) := on_find_one world w q in
      let '(a, tr, w2) := run world (k r) w1 in
      (a, EvFindOne q r :: tr, w2)
  | Chat m ms t mt k =>
      let (r, w1) := on_chat world w m ms t mt in
      let '(a, tr, w2) := run world (k r) w1 in
      (a, EvChat m ms t mt r :: tr, w2)
  end.

Definition outcome_of {W A : Type} (x : A * list Event * W) : A :=
  fst (fst x).
Definition trace_of {W A : Type} (x : A * list Event * W) : list Event :=
  snd (fst x).

(** The instance as [retrieve_aggregate_facts] sees it after its first
    statement: the [history] argument, when one is passed, replaces the
    instance's own history. *)
Definition enter (hist : option (list Turn)) (self : QueryProcessor)
  : QueryProcessor :=
  match hist with
  | Some h => set_history (Some h) self
  | None => self
  end.

(** ** Vocabulary of the statements *)

Module Vocab.

Fixpoint all_chars (f : ascii -> bool) (s : string) : bool :=
  match s with
  | EmptyString => true
  | String c s' => f c && all_chars f s'
  end.

Definition is_comma (c : ascii) : bool := Ascii.eqb c ","%char.

(** The three characters at which a country or market value stops. *)
Definition is_stop (c : ascii) : bool :=
  Ascii.eqb c " "%char || Ascii.eqb c "034"%char || Ascii.eqb c ","%char.

(** [post] is empty or begins with a character satisfying [f]. *)
Definition ends_or_starts (f : ascii -> bool) (post : string) : Prop :=
  match post with
  | EmptyString => True
  | String c _ => f c = true
  end.

(** A candidate that the score test of [search_similar_documents]
    keeps. *)
Definition above (min_score : Q) (d : doc) : bool :=
  match score_ge (score_of d) min_score with
  | Some true => true
  | _ => false
  end.

(** The similarity score of a candidate, when it is a number. *)
Definition score_value (d : doc) : option Q :=
  match score_of d with
  | VNum q => Some q
  | VInt n => Some (inject_Z n)
  | _ => None
  end.

(** The filter-combination rule in the specification's words: no filter
    for an absent (or empty) list, a direct equality match for a single
    pair, a logical AND of the equality matches for several pairs. *)
Definition combined_filter (filters : option (list Filter)) : option Query :=
  match filters with
  | None | Some [] => None
  | Some [(k, v)] => Some (QEq k v)
  | Some fs => Some (QAnd (map (fun kv => QEq (fst kv) (snd kv)) fs))
  end.

(** The last [n] elements of a list. *)
Definition last_n {A : Type} (n : nat) (l : list A) : list A :=
  skipn (length l - n) l.

(** The retrieval query in the specification's words, for a non-empty
    history. *)
Definition spec_retrieval_query (h : list Turn) (question : string)
  (max_messages : nat) : string :=
  ("Conversation context:" ++ nl
   ++ Text.join nl (map render_turn (last_n max_messages h))
   ++ nl ++ nl ++ "Current question:" ++ nl ++ question)%string.

(** The chat exchange of a synthesis started in state [s]. *)
Definition chat_event (s : QueryProcessor) (prompt : string)
  (reply : option (option string)) : Event :=
  EvChat (openai_model s) (list_of (history s) ++ [mkTurn "user" prompt])
         (3 # 10)%Q 800%Z reply.

(** How a turn ends once its synthesis, started in state [s], got
    [reply]. *)
Definition finish (s : QueryProcessor) (prompt : string)
  (reply : option (option string))
  : Outcome (string * option (list Turn)) :=
  match reply with
  | Some c =>
      let h := truncate_history
                 (Some ((list_of (history s) ++ [mkTurn "user" prompt])
                        ++ [mkTurn "assistant" (content_or_empty c)])) in
      Normal (content_or_empty c, h) (set_history h s)
  | None => Normal (no_context, None) (set_history None s)
  end.

(** The condition of the reuse path. *)
Definition reuses (self : QueryProcessor) (question : string)
  (filters : option Extraction) : bool :=
  truthy_list (last_results self) && _is_followup question
  && negb (has_explicit_filter filters).

Definition filter_list_of (filters : option Extraction)
  : option (list Filter) :=
  match filters with
  | Some (fs, _) => Some fs
  | None => None
  end.

Definition found (d : option doc) : bool :=
  match d with
  | Some (_ :: _) => true
  | _ => false
  end.

Section TurnRules.

Variable dumps : doc -> string.
Variable question : string.
Variable hist : option (list Turn).
Variable self : QueryProcessor.

(** Every way one call of [retrieve_aggregate_facts] can go: the exchanges
    with the services and how the call ends. *)
Inductive turn : list Event -> Outcome (string * option (list Turn)) -> Prop :=
| T_reuse filters reply :
    extract_filters question = Ok filters ->
    reuses self question filters = true ->
    let s := enter hist self in
    let prompt :=
      grounding_prompt (Text.join nl (list_of (last_results self)))
                       question in
    turn [chat_event s prompt reply] (finish s prompt reply)
| T_lookup_error m :
    extract_filters question = Ok (Some ([("_id", VStr m)], true)) ->
    turn [EvFindOne [("_id", VStr m)] None]
         (Raised ServiceError (enter hist self))
| T_lookup_miss m d :
    extract_filters question = Ok (Some ([("_id", VStr m)], true)) ->
    found d = false ->
    let s := enter hist self in
    turn [EvFindOne [("_id", VStr m)] (Some d)]
         (Normal (no_context, history s) s)
| T_lookup_hit m d reply :
    extract_filters question = Ok (Some ([("_id", VStr m)], true)) ->
    found (Some d) = true ->
    let filters := Some ([("_id", VStr m)], true) in
    let results := [dumps (dict_pop "embedding" d)] in
    let s := set_last (Some results) (Some question) filters
                      (enter hist self) in
    let prompt := grounding_prompt (Text.join nl results) question in
    turn [EvFindOne [("_id", VStr m)] (Some (Some d));
          chat_event s prompt reply]
         (finish s prompt reply)
| T_embed_error filters :
    extract_filters question = Ok filters ->
    reuses self question filters = false ->
    is_direct filters = false ->
    let s := enter hist self in
    turn [EvEmbed (voyage_model s) (_build_retrieval_query s question 4%Z)
                  None]
         (Raised ServiceError s)
| T_search_error filters v pipeline :
    extract_filters question = Ok filters ->
    reuses self question filters = false ->
    is_direct filters = false ->
    let s := enter hist self in
    build_pipeline s v (filter_list_of filters) 5%Z 400%Z = Ok pipeline ->
    turn [EvEmbed (voyage_model s) (_build_retrieval_query s question 4%Z)
                  (Some v);
          EvAggregate pipeline None]
         (Raised ServiceError s)
| T_search_type_error filters v pipeline candidates e :
    extract_filters question = Ok filters ->
    reuses self question filters = false ->
    is_direct filters = false ->
    let s := enter hist self in
    build_pipeline s v (filter_list_of filters) 5%Z 400%Z = Ok pipeline ->
    collect dumps default_min_score candidates [] = Throw e ->
    turn [EvEmbed (voyage_model s) (_build_retrieval_query s question 4%Z)
                  (Some v);
          EvAggregate pipeline (Some candidates)]
         (Raised e s)
| T_search_empty filters v pipeline candidates :
    extract_filters question = Ok filters ->
    reuses self question filters = false ->
    is_direct filters = false ->
    let s := enter hist self in
    build_pipeline s v (filter_list_of filters) 5%Z 400%Z = Ok pipeline ->
    collect dumps default_min_score candidates [] = Ok [] ->
    turn [EvEmbed (voyage_model s) (_build_retrieval_query s question 4%Z)
                  (Some v);
          EvAggregate pipeline (Some candidates)]
         (Normal (no_context, history s) s)
| T_search_hit filters v pipeline candidates r results reply :
    extract_filters question = Ok filters ->
    reuses self question filters = false ->
    is_direct filters = false ->
    let s0 := enter hist self in
    build_pipeline s0 v (filter_list_of filters) 5%Z 400%Z = Ok pipeline ->
    collect dumps default_min_score candidates [] = Ok (r :: results) ->
    let s := set_last (Some (r :: results)) (Some question) filters s0 in
    let prompt := grounding_prompt (Text.join nl (r :: results)) question in
    turn [EvEmbed (voyage_model s0) (_build_retrieval_query s0 question 4%Z)
                  (Some v);
          EvAggregate pipeline (Some candidates);
          chat_event s prompt reply]
         (finish s prompt reply)
| T_extract_error e :
    extract_filters question = Throw e ->
    turn [] (Raised e (enter hist self)).

End TurnRules.

(** A fresh retrieval that retrieved nothing: a lookup that found no
    record, or a vector search all of whose candidates score below the
    threshold. *)
Definition empty_retrieval (e : Event) : Prop :=
  match e with
  | EvFindOne _ (Some d) => found d = false
  | EvAggregate _ (Some candidates) =>
      Forall (fun d => exists q, score_value d = Some q
                                 /\ (q < default_min_score)%Q) candidates
  | _ => False
  end.

End Vocab.

(** ** Concrete data for the examples *)

Import Vocab.

Module Demo.

(** A stand-in serializer: a listing is shown by its name. *)
Definition dumps (d : doc) : string :=
  match dict_get "name" d with
  | Some (VStr s) => s
  | _ => "{}"
  end.

Definition listing : doc :=
  [("_id", VStr "10006546"); ("name", VStr "Ribeira Charming Duplex");
   ("embedding", VArr [VNum (1 # 4); VNum (3 # 4)])].

Definition near : doc :=
  [("_id", VStr "10009999"); ("name", VStr "Horto flat");
   ("score", VNum (9 # 10))].

Definition far : doc :=
  [("_id", VStr "10021707"); ("name", VStr "Private Room in Bushwick");
   ("score", VNum (2 # 5))].

(** Services with scripted replies; the state counts the calls. *)
Definition world (chat : option (option string)) (record : option doc)
  (candidates : list doc) : World nat :=
  {| on_embed := fun n _ _ => (Some [(1 # 2)%Q; (1 # 3)%Q], S n);
     on_aggregate := fun n _ => (Some candidates, S n);
     on_find_one := fun n _ => (Some record, S n);
     on_chat := fun n _ _ _ _ => (chat, S n) |}.

Definition started : QueryProcessor :=
  {| history := None; last_results := None; last_question := None;
     last_filters := None; openai_model := "gpt-4o-mini";
     voyage_model := "voyage-2"; vector_index := "vector_index" |}.

Definition talking : QueryProcessor :=
  {| history := Some [mkTurn "user" "cheap places in Porto";
                      mkTurn "assistant" "Two listings match."];
     last_results := Some ["Horto flat"];
     last_question := Some "cheap places in Porto";
     last_filters := None; openai_model := "gpt-4o-mini";
     voyage_model := "voyage-2"; vector_index := "vector_index" |}.

(** Eight turns of earlier conversation and one cached snippet. *)
Definition long_talk : QueryProcessor :=
  {| history := Some [mkTurn "user" "q1"; mkTurn "assistant" "a1";
                      mkTurn "user" "q2"; mkTurn "assistant" "a2";
                      mkTurn "user" "q3"; mkTurn "assistant" "a3";
                      mkTurn "user" "q4"; mkTurn "assistant" "a4"];
     last_results := Some ["Horto flat"];
     last_question := Some "cheap places in Porto";
     last_filters := None; openai_model := "gpt-4o-mini";
     voyage_model := "voyage-2"; vector_index := "vector_index" |}.

(** The conversation a follow-up sends to the chat model from state [s]. *)
Definition followup_messages (s : QueryProcessor) (question : string)
  : list Turn :=
  list_of (history s)
  ++ [mkTurn "user"
        (grounding_prompt (Text.join nl (list_of (last_results s)))
                          question)].

(** The pipeline of a search for the scripted query vector. *)
Definition pipeline_with (f : option Query) : list Stage :=
  [ SVectorSearch
      {| vs_index := "vector_index";
         vs_path := "embedding";
         vs_queryVector := [(1 # 2)%Q; (1 # 3)%Q];
         vs_limit := 5%Z;
         vs_numCandidates := 400%Z;
         vs_filter := f |};
    SProject projection;
    SSort "score" (-1)%Z ].

Definition paris_filter : Query :=
  QAnd [QEq "address.market" (VStr "Paris"); QEq "beds" (VInt 2);
        QEq "bedrooms" (VInt 1)].

End Demo.

(** ** Configuration and the interactive loop *)

(** The [settings] module as the attributes it defines, in any order;
    [A] is the type of their values. *)
Definition Settings (A : Type) : Type := list (string * A).

(** [getattr(settings, n)] when [hasattr(settings, n)]. *)
Fixpoint getattr {A : Type} (settings : Settings A) (n : string)
  : option A :=
  match settings with
  | [] => None
  | (k, v) :: rest => if String.eqb k n then Some v else getattr rest n
  end.

(** [_get_setting]: the positional names in order, then the default. *)
Fixpoint _get_setting {A : Type} (settings : Settings A)
  (names : list string) (default : A) : A :=
  match names with
  | [] => default
  | n :: rest =>
      match getattr settings n with
      | Some v => v
      | None => _get_setting settings rest default
      end
  end.

(** A [MongoClient] that was built for a URI, and a collection of it.
    What pymongo does with the URI is outside the model. *)
Record MongoClient : Type := mkMongoClient {
  client_uri : string;
  client_server_api : string
}.

Record Collection : Type := mkCollection {
  coll_client : MongoClient;
  coll_db : string;
  coll_name : string
}.

(** The settings these two methods read are strings or [None]. *)
Definition _create_mongo_client (settings : Settings (option string))
  : Exc MongoClient :=
  let uri := _get_setting settings ["MONGODB_URI"; "MongoURI"] None in
  match truthy_str uri with
  | None => Throw ValueError
  | Some uri => Ok (mkMongoClient uri "1")
  end.

Definition _get_vector_collection (settings : Settings (option string))
  (mongo_client : MongoClient) : Exc Collection :=
  let db_name := _get_setting settings ["MONGODB_DB"; "monogo_database"]
                              None in
  let coll_name :=
    _get_setting settings ["MONGODB_COLLECTION"; "vector_collection"] None in
  match truthy_str db_name, truthy_str coll_name with
  | Some db, Some coll => Ok (mkCollection mongo_client db coll)
  | _, _ => Throw ValueError
  end.

(** [s[n:]] for a string. *)
Fixpoint string_drop (n : nat) (s : string) : string :=
  match n, s with
  | O, _ => s
  | S n', String _ s' => string_drop n' s'
  | S _, EmptyString => EmptyString
  end.

(** [s.removeprefix(p)] *)
Definition removeprefix (p s : string) : string :=
  if prefix p s then string_drop (String.length p) s else s.

(** The [clear] command of [run]. *)
Definition clear_session (self : QueryProcessor) : QueryProcessor :=
  {| history := None;
     last_results := None;
     last_question := None;
     last_filters := None;
     openai_model := openai_model self;
     voyage_model := voyage_model self;
     vector_index := vector_index self |}.

Section Loop.

Variable dumps : doc -> string.

(** One iteration of the [while True] loop of [run] on one line read by
    [input]; the value is the line it prints. *)
Definition run_step (line : string) : M string :=
  let user_input := Text.strip line in
  match user_input with
  | EmptyString => ret "Answer: Not a valid question"
  | String _ _ =>
      answer <-
        (if prefix "ask" user_input then
           let user_input :=
             Text.strip (removeprefix "ask" user_input) in
           r <- query_llm user_input None ;;
           ret (fst r)
         else if prefix "clear" user_input then
           modify clear_session ;;;
           ret "history cleared..."
         else
           r <- retrieve_aggregate_facts dumps user_input None ;;
           ret (fst r)) ;;
      ret ("Answer: " ++ answer)%string
  end.

(** [run] on the lines typed before the keyboard interrupt: the lines
    printed in reply.  An exception that leaves an iteration leaves [run]
    (only [KeyboardInterrupt] is caught there). *)
Fixpoint run_loop (lines : list string) : M (list string) :=
  match lines with
  | [] => ret []
  | line :: rest =>
      out <- run_step line ;;
      outs <- run_loop rest ;;
      ret (out :: outs)
  end.

End Loop.

(** ** Vocabulary of the further statements *)

Module Vocab2.

(** The state a method call leaves behind, however it ends. *)
Definition state_after {A : Type} (o : Outcome A) : QueryProcessor :=
  match o with
  | Normal _ s => s
  | Raised _ s => s
  end.

(** [small] is [big] with some elements removed, order kept. *)
Fixpoint subsequence {A : Type} (eqb : A -> A -> bool) (small big : list A)
  : bool :=
  match small, big with
  | [], _ => true
  | _ :: _, [] => false
  | x :: small', y :: big' =>
      if eqb x y then subsequence eqb small' big'
      else subsequence eqb small big'
  end.

(** The fields [extract_filters] can report besides [_id], in the order
    it appends them. *)
Definition filter_fields : list string :=
  ["address.country_code"; "address.market"; "beds"; "bedrooms"].

(** [needle] occurs in [text] when letter case is disregarded. *)
Definition occurs_ci (needle text : string) : Prop :=
  exists pre kw post,
    text = (pre ++ kw ++ post)%string /\ Text.lower kw = needle.

(** The window [history[-max_messages:]] spelled out. *)
Definition window {A : Type} (max_messages : Z) (h : list A) : list A :=
  if (1 <=? max_messages)%Z then Vocab.last_n (Z.to_nat max_messages) h
  else skipn (Z.to_nat (- max_messages)) h.

(** A candidate whose score is not a number. *)
Definition bad_score (d : doc) : bool :=
  match Vocab.score_value d with
  | Some _ => false
  | None => true
  end.

(** Any character but the equals sign. *)
Definition not_equals (c : ascii) : bool := negb (Ascii.eqb c "="%char).

(** The last character of a non-empty string. *)
Fixpoint last_char (s : string) : option ascii :=
  match s with
  | EmptyString => None
  | String c EmptyString => Some c
  | String _ s' => last_char s'
  end.

(** [s] is non-empty and neither begins nor ends with whitespace. *)
Definition solid_ends (s : string) : bool :=
  match s, last_char s with
  | String c _, Some d => negb (Text.is_space c) && negb (Text.is_space d)
  | _, _ => false
  end.

End Vocab2.

(** ** Further concrete data for the examples *)

Module Demo2.

(** Services where the embedding call raises. *)
Definition embed_down : World nat :=
  {| on_embed := fun n _ _ => (None, S n);
     on_aggregate := fun n _ => (Some [Demo.near], S n);
     on_find_one := fun n _ => (Some (Some Demo.listing), S n);
     on_chat := fun n _ _ _ _ => (Some (Some "unused"), S n) |}.

(** A candidate whose score is text. *)
Definition odd : doc :=
  [("_id", VStr "10030955"); ("name", VStr "Apt Linda Vista");
   ("score", VStr "high")].

(** A settings module whose primary URI is defined but empty. *)
Definition settings_empty_uri : Settings (option string) :=
  [("MONGODB_URI", Some ""); ("MongoURI", Some "mongodb://localhost");
   ("MONGODB_DB", Some "sample_airbnb")].

(** A conversation whose last retrieval cached two snippets. *)
Definition two_cached : QueryProcessor :=
  {| history := Some [mkTurn "user" "cheap places in Porto";
                      mkTurn "assistant" "Two listings match."];
     last_results := Some ["Horto flat"; "Ribeira Charming Duplex"];
     last_question := Some "cheap places in Porto";
     last_filters := None; openai_model := "gpt-4o-mini";
     voyage_model := "voyage-2"; vector_index := "vector_index" |}.

End Demo2.

(** * Properties *)

(** ** Text and pattern lemmas *)

Module TextFacts.
Import Text Re Vocab.

Lemma append_nil_r (s : string) : (s ++ "")%string = s.
Proof. induction s as [|c s IH]; simpl; [reflexivity | now rewrite IH]. Qed.

Lemma append_assoc (a b c : string) :
  ((a ++ b) ++ c)%string = (a ++ (b ++ c))%string.
Proof. induction a as [|x a IH]; simpl; [reflexivity | now rewrite IH]. Qed.

Lemma length_append (a b : string) :
  String.length (a ++ b) = String.length a + String.length b.
Proof. induction a as [|x a IH]; simpl; [reflexivity | now rewrite IH]. Qed.

Lemma lower_length (s : string) : String.length (lower s) = String.length s.
Proof. induction s as [|c s IH]; simpl; [reflexivity | now rewrite IH]. Qed.

Lemma lower_char_idem (c : ascii) : lower_char (lower_char c) = lower_char c.
Proof.
  destruct c as [[] [] [] [] [] [] [] []]; reflexivity.
Qed.

(** *** The literal *)

Lemma match_lit_complete (l kw rest : string) :
  lower kw = lower l -> match_lit l (kw ++ rest) = Some rest.
Proof.
  revert kw. induction l as [|a l IH]; intros kw H.
  - destruct kw; [reflexivity | discriminate].
  - destruct kw as [|b kw]; [discriminate|].
    simpl in H. injection H as Hc Hr. simpl.
    rewrite Hc, Ascii.eqb_refl. now apply IH.
Qed.

Lemma match_lit_sound (l s rest : string) :
  match_lit l s = Some rest ->
  exists kw, s = (kw ++ rest)%string /\ lower kw = lower l.
Proof.
  revert s. induction l as [|a l IH]; intros s H.
  - simpl in H. destruct s; injection H as <-; exists ""; split; reflexivity.
  - destruct s as [|b s]; [discriminate|]. simpl in H.
    destruct (Ascii.eqb (lower_char a) (lower_char b)) eqn:E; [|discriminate].
    apply Ascii.eqb_eq in E. destruct (IH _ H) as (kw & -> & Hk).
    exists (String b kw). split; [reflexivity|]. simpl. now rewrite Hk, E.
Qed.

(** *** The capture group *)

Lemma take_exactly_complete (f : ascii -> bool) (d post : string) :
  all_chars f d = true ->
  take_exactly (String.length d) f (d ++ post) = Some d.
Proof.
  induction d as [|c d IH]; simpl; intros H; [reflexivity|].
  apply andb_true_iff in H as [Hc Hd]. now rewrite Hc, IH.
Qed.

Lemma take_exactly_sound (n : nat) (f : ascii -> bool) (s g : string) :
  take_exactly n f s = Some g ->
  String.length g = n /\ all_chars f g = true
  /\ exists post, s = (g ++ post)%string.
Proof.
  revert s g. induction n as [|n IH]; intros s g H; simpl in H.
  - injection H as <-. repeat split. now exists s.
  - destruct s as [|c s]; [discriminate|].
    destruct (f c) eqn:Hc; [|discriminate].
    destruct (take_exactly n f s) as [g'|] eqn:E; [|discriminate].
    injection H as <-. destruct (IH _ _ E) as (Hl & Ha & post & ->).
    simpl. rewrite Hc, Ha, Hl. repeat split. now exists post.
Qed.

Lemma take_while_spec (f : ascii -> bool) (s : string) :
  all_chars f (take_while f s) = true
  /\ exists post, s = (take_while f s ++ post)%string
                  /\ ends_or_starts (fun c => negb (f c)) post.
Proof.
  induction s as [|c s (Ha & post & Hs & He)]; simpl.
  - split; [reflexivity|]. now exists "".
  - destruct (f c) eqn:Hc; simpl.
    + rewrite Hc, Ha. split; [reflexivity|].
      exists post. split; [now rewrite <- Hs | exact He].
    + split; [reflexivity|]. exists (String c s). split; [reflexivity|].
      simpl. now rewrite Hc.
Qed.

Lemma before_comma_spec (s : string) :
  all_chars (fun c => negb (is_comma c)) (before_comma s) = true
  /\ exists post, s = (before_comma s ++ post)%string
                  /\ ends_or_starts is_comma post.
Proof.
  induction s as [|c s (Ha & post & Hs & He)]; simpl.
  - split; [reflexivity|]. now exists "".
  - destruct (Ascii.eqb c ",") eqn:Hc; simpl.
    + split; [reflexivity|]. exists (String c s). split; [reflexivity|].
      exact Hc.
    + unfold is_comma at 1. rewrite Hc, Ha. split; [reflexivity|].
      exists post. split; [now rewrite <- Hs | exact He].
Qed.

Lemma before_comma_id (s : string) :
  all_chars (fun c => negb (is_comma c)) s = true -> before_comma s = s.
Proof.
  induction s as [|c s IH]; simpl; intros H; [reflexivity|].
  apply andb_true_iff in H as [Hc Hs]. unfold is_comma in Hc.
  destruct (Ascii.eqb c ","); [discriminate|]. now rewrite IH.
Qed.

Lemma all_chars_impl (f g : ascii -> bool) (s : string) :
  (forall c, f c = true -> g c = true) ->
  all_chars f s = true -> all_chars g s = true.
Proof.
  intros Hfg. induction s as [|c s IH]; simpl; intros H; [reflexivity|].
  apply andb_true_iff in H as [Hc Hs]. now rewrite (Hfg _ Hc), IH.
Qed.

Lemma all_chars_prefix (f : ascii -> bool) (a b : string) :
  all_chars f (a ++ b) = true -> all_chars f a = true.
Proof.
  induction a as [|c a IH]; simpl; intros H; [reflexivity|].
  apply andb_true_iff in H as [Hc Hs]. now rewrite Hc, IH.
Qed.

Lemma digit_not_comma (c : ascii) :
  is_digit c = true -> negb (is_comma c) = true.
Proof.
  unfold is_comma. destruct (Ascii.eqb c ",") eqn:E; [|reflexivity].
  apply Ascii.eqb_eq in E. subst c. discriminate.
Qed.

(** *** The leftmost search *)

Lemma search_complete (p : Pattern) (pre rest g : string) :
  match_at p rest = Some g ->
  exists g', search p (pre ++ rest) = Some g'.
Proof.
  intros H. induction pre as [|c pre (g' & IH)]; simpl.
  - exists g. destruct rest; simpl; now rewrite H.
  - destruct (match_at p (String c (pre ++ rest))) as [g0|].
    + now exists g0.
    + now exists g'.
Qed.

Lemma search_sound (p : Pattern) (s g : string) :
  search p s = Some g ->
  exists pre rest, s = (pre ++ rest)%string /\ match_at p rest = Some g.
Proof.
  induction s as [|c s IH]; simpl.
  - destruct (match_at p "") eqn:E; [|discriminate].
    intros [= <-]. now exists "", "".
  - destruct (match_at p (String c s)) eqn:E.
    + intros [= <-]. now exists "", (String c s).
    + intros H. destruct (IH H) as (pre & rest & -> & Hm).
      now exists (String c pre), rest.
Qed.

Lemma search_none (p : Pattern) (pre rest : string) :
  search p (pre ++ rest) = None -> match_at p rest = None.
Proof.
  intros H. destruct (match_at p rest) as [g|] eqn:E; [|reflexivity].
  destruct (search_complete p pre rest g E) as (g' & Hg). congruence.
Qed.

End TextFacts.

(** ** Filter extraction *)

Module ExtractFacts.
Import Text Re Vocab TextFacts.

Lemma truthy_str_some (m : option string) (v : string) :
  truthy_str m = Some v -> m = Some v /\ v <> "".
Proof.
  destruct m as [[|c r]|]; simpl; try discriminate.
  intros [= <-]. split; [reflexivity | discriminate].
Qed.

Lemma truthy_str_nonempty (s : string) :
  s <> "" -> truthy_str (Some s) = Some s.
Proof. destruct s; [congruence | reflexivity]. Qed.

(** What a truthy result of [_split_filters] is, for a pattern whose group
    is [CLASS+]: the text after an occurrence of the literal, up to the
    first character outside the class or the first comma. *)
Lemma split_filters_value (p : Pattern) (question v : string) :
  quant p = OneOrMore ->
  truthy_str (_split_filters p question) = Some v ->
  exists pre kw post,
    question = (pre ++ kw ++ v ++ post)%string
    /\ lower kw = lower (lit p)
    /\ v <> ""
    /\ all_chars (fun c => cls p c && negb (is_comma c)) v = true
    /\ ends_or_starts (fun c => negb (cls p c) || is_comma c) post.
Proof.
  intros Hq H. apply truthy_str_some in H as [H Hne].
  unfold _split_filters in H.
  destruct (search p question) as [g|] eqn:Hs; [|discriminate].
  injection H as Hv.
  destruct (search_sound _ _ _ Hs) as (pre & rest & -> & Hm).
  unfold match_at in Hm.
  destruct (match_lit (lit p) rest) as [rest'|] eqn:Hl; [|discriminate].
  destruct (match_lit_sound _ _ _ Hl) as (kw & -> & Hkw).
  unfold match_group in Hm. rewrite Hq in Hm.
  destruct (take_while_spec (cls p) rest') as (Hall & post1 & Hr & He1).
  assert (Hg : take_while (cls p) rest' = g)
    by (destruct (take_while (cls p) rest'); [discriminate | congruence]).
  rewrite Hg in *. clear Hg Hm.
  destruct (before_comma_spec g) as (Hnc & post2 & Hg2 & He2).
  rewrite Hv in *.
  exists pre, kw, (post2 ++ post1)%string.
  split; [|split; [exact Hkw | split; [exact Hne | split]]].
  - rewrite Hr, Hg2 at 1. now rewrite append_assoc.
  - rewrite Hg2 in Hall. apply all_chars_prefix in Hall.
    clear - Hall Hnc. induction v as [|c v IH]; [reflexivity|].
    simpl in *. apply andb_true_iff in Hall as [-> Ha].
    apply andb_true_iff in Hnc as [-> Hn]. simpl. now apply IH.
  - destruct post2 as [|c post2]; simpl in *.
    + destruct post1; simpl in *; [exact I | now rewrite He1].
    + rewrite He2. apply orb_true_r.
Qed.

Lemma append_str_in (filters : list Filter) (field : string)
  (m : option string) (k : string) (x : value) :
  In (k, x) (append_str filters field m) ->
  In (k, x) filters
  \/ (k = field /\ exists v, x = VStr v /\ truthy_str m = Some v).
Proof.
  unfold append_str. destruct (truthy_str m) as [s|]; [|now left].
  intros H. apply in_app_or in H as [H|[H|[]]]; [now left|].
  injection H as <- <-. right. split; [reflexivity|]. now exists s.
Qed.

Lemma append_int_in (filters fs : list Filter) (field : string)
  (m : option string) (k v : string) :
  append_int filters field m = Ok fs ->
  In (k, VStr v) fs -> In (k, VStr v) filters.
Proof.
  unfold append_int. destruct (truthy_str m) as [s|].
  - destruct (py_int s); [|discriminate]. intros [= <-] H.
    apply in_app_or in H as [H|[H|[]]]; [exact H | discriminate].
  - now intros [= <-].
Qed.

(** [int] accepts what the numeric patterns capture unless it is longer
    than [int_max_str_digits]. *)
Lemma py_int_digits (s : string) :
  s <> "" -> all_chars is_digit s = true ->
  String.length s <= int_max_str_digits ->
  exists n, py_int s = Some n.
Proof.
  intros Hne Hd Hl. unfold py_int. destruct s as [|c s]; [congruence|].
  replace (int_max_str_digits <? String.length (String c s)) with false
    by (symmetry; apply Nat.ltb_ge; exact Hl).
  clear Hne Hl. generalize 0%Z. revert Hd. generalize (String c s). clear.
  induction s as [|c s IH]; simpl; intros Hd z; [now exists z|].
  apply andb_true_iff in Hd as [-> Hd]. now apply IH.
Qed.

Lemma py_int_too_long (s : string) :
  s <> "" -> all_chars is_digit s = true -> py_int s = None ->
  int_max_str_digits < String.length s.
Proof.
  intros Hne Hd Hp.
  destruct (Nat.lt_ge_cases int_max_str_digits (String.length s)) as [H|H];
    [exact H|].
  destruct (py_int_digits s Hne Hd H) as [n Hn]. congruence.
Qed.

Lemma split_filters_digits (p : Pattern) (question v : string) :
  quant p = OneOrMore ->
  cls p = is_digit ->
  truthy_str (_split_filters p question) = Some v ->
  v <> "" /\ all_chars is_digit v = true.
Proof.
  intros Hq Hc H.
  destruct (split_filters_value p question v Hq H) as (_ & _ & _ & _ & _ & Hne & Ha & _).
  split; [exact Hne|]. rewrite Hc in Ha.
  revert Ha. apply all_chars_impl. intros c Hx.
  now apply andb_true_iff in Hx as [-> _].
Qed.

(** The only exception of a numeric filter: the [ValueError] of [int] on
    a run of more than [int_max_str_digits] digits after the keyword. *)
Lemma append_int_throw (filters : list Filter) (field : string)
  (p : Pattern) (question : string) (e : Error) :
  quant p = OneOrMore ->
  cls p = is_digit ->
  append_int filters field (_split_filters p question) = Throw e ->
  e = ValueError
  /\ exists pre kw digits post,
       question = (pre ++ kw ++ digits ++ post)%string
       /\ lower kw = lower (lit p)
       /\ all_chars is_digit digits = true
       /\ int_max_str_digits < String.length digits.
Proof.
  intros Hq Hc. unfold append_int.
  destruct (truthy_str (_split_filters p question)) as [s|] eqn:E;
    [|discriminate].
  destruct (py_int s) as [n|] eqn:P; [discriminate|].
  intros [= <-]. split; [reflexivity|].
  destruct (split_filters_digits p question s Hq Hc E) as [Hne Hd].
  destruct (split_filters_value p question s Hq E)
    as (pre & kw & post & Heq & Hkw & _).
  exists pre, kw, s, post. repeat split; try assumption.
  now apply py_int_too_long.
Qed.

(** Extraction raises only through [int]: a [ValueError], on a question
    in which [beds=] or [bedrooms=] is followed by more than
    [int_max_str_digits] digits. *)
Lemma extract_filters_throw (question : string) (e : Error) :
  extract_filters question = Throw e ->
  e = ValueError
  /\ exists pre kw digits post,
       question = (pre ++ kw ++ digits ++ post)%string
       /\ (lower kw = "beds=" \/ lower kw = "bedrooms=")
       /\ all_chars is_digit digits = true
       /\ int_max_str_digits < String.length digits.
Proof.
  unfold extract_filters.
  destruct (truthy_str (_split_filters id_pattern question));
    [discriminate|].
  destruct (append_int _ "beds" _) as [f1|e1] eqn:E1.
  - destruct (append_int f1 "bedrooms" _) as [f2|e2] eqn:E2.
    + destruct f2; discriminate.
    + intros [= <-].
      destruct (append_int_throw _ _ bedrooms_pattern _ _ eq_refl eq_refl E2)
        as (-> & pre & kw & digits & post & Hq & Hk & Hd & Hl).
      split; [reflexivity|]. exists pre, kw, digits, post.
      repeat split; try assumption. now right.
  - intros [= <-].
    destruct (append_int_throw _ _ beds_pattern _ _ eq_refl eq_refl E1)
      as (-> & pre & kw & digits & post & Hq & Hk & Hd & Hl).
    split; [reflexivity|]. exists pre, kw, digits, post.
    repeat split; try assumption. now left.
Qed.

(** A question of at most [int_max_str_digits] characters is always
    extracted without an exception. *)
Lemma extract_filters_short (question : string) :
  String.length question <= int_max_str_digits ->
  exists r, extract_filters question = Ok r.
Proof.
  intros Hl. destruct (extract_filters question) as [r|e] eqn:E; [eauto|].
  destruct (extract_filters_throw _ _ E)
    as (_ & pre & kw & digits & post & -> & _ & _ & Hd).
  rewrite !length_append in Hl. lia.
Qed.

(** The only way extraction reports a direct lookup. *)
Lemma extract_filters_direct (question : string) (fs : list Filter) :
  extract_filters question = Ok (Some (fs, true)) ->
  exists m, fs = [("_id", VStr m)]
            /\ truthy_str (_split_filters id_pattern question) = Some m.
Proof.
  unfold extract_filters.
  destruct (truthy_str (_split_filters id_pattern question)) as [m|].
  - intros [= <-]. now exists m.
  - destruct (append_int _ "beds" _); [|discriminate].
    destruct (append_int _ "bedrooms" _) as [[|]|]; discriminate.
Qed.

(** A truthy identifier match is eight digits following [id=]. *)
Lemma id_match_value (question m : string) :
  truthy_str (_split_filters id_pattern question) = Some m ->
  String.length m = 8 /\ all_chars is_digit m = true
  /\ exists pre kw post,
       question = (pre ++ kw ++ m ++ post)%string /\ lower kw = "id=".
Proof.
  intros H. apply truthy_str_some in H as [H _].
  unfold _split_filters in H.
  destruct (search id_pattern question) as [g|] eqn:Hs; [|discriminate].
  injection H as Hv.
  destruct (search_sound _ _ _ Hs) as (pre & rest & -> & Hm).
  unfold match_at in Hm.
  destruct (match_lit (lit id_pattern) rest) as [rest'|] eqn:Hl;
    [|discriminate].
  destruct (match_lit_sound _ _ _ Hl) as (kw & -> & Hkw).
  apply take_exactly_sound in Hm as (Hlen & Hd & post & ->).
  rewrite before_comma_id in Hv
    by (revert Hd; apply all_chars_impl, digit_not_comma).
  subst m. repeat split; try assumption.
  now exists pre, kw, post.
Qed.

End ExtractFacts.

(** ** One turn of the orchestrator *)

Module TurnFacts.
Import Vocab.


#[local] Arguments extract_filters : simpl never.
#[local] Arguments _is_followup : simpl never.
#[local] Arguments grounding_prompt : simpl never.
#[local] Arguments _build_retrieval_query : simpl never.
#[local] Arguments Text.join : simpl never.
#[local] Arguments truncate_history : simpl never.
#[local] Arguments build_pipeline : simpl never.
#[local] Arguments collect : simpl never.
#[local] Arguments dict_pop : simpl never.
#[local] Arguments has_explicit_filter : simpl never.
#[local] Arguments synthesize : simpl never.

Section Orchestration.
Variable dumps : doc -> string.
Variable W : Type.
Variable world : World W.

Lemma run_pbind {A B : Type} (p : Prog A) (f : A -> Prog B) (w : W) :
  run world (pbind p f) w
  = let '(a, tr, w1) := run world p w in
    let '(b, tr', w2) := run world (f a) w1 in
    (b, tr ++ tr', w2).
Proof.
  revert w. induction p as [a|m t k IH|pl k IH|q k IH|m ms t mt k IH];
    intros w; simpl.
  - now destruct (run world (f a) w) as [[b tr'] w2].
  - destruct (on_embed world w m t) as [r w1]. rewrite IH.
    destruct (run world (k r) w1) as [[a tr] w2].
    now destruct (run world (f a) w2) as [[b tr'] w3].
  - destruct (on_aggregate world w pl) as [r w1]. rewrite IH.
    destruct (run world (k r) w1) as [[a tr] w2].
    now destruct (run world (f a) w2) as [[b tr'] w3].
  - destruct (on_find_one world w q) as [r w1]. rewrite IH.
    destruct (run world (k r) w1) as [[a tr] w2].
    now destruct (run world (f a) w2) as [[b tr'] w3].
  - destruct (on_chat world w m ms t mt) as [r w1]. rewrite IH.
    destruct (run world (k r) w1) as [[a tr] w2].
    now destruct (run world (f a) w2) as [[b tr'] w3].
Qed.

Lemma run_bind {A B : Type} (m : M A) (f : A -> M B)
  (self : QueryProcessor) (w : W) :
  run world (bind m f self) w
  = let '(o, tr, w1) := run world (m self) w in
    match o with
    | Normal a s =>
        let '(b, tr', w2) := run world (f a s) w1 in (b, tr ++ tr', w2)
    | Raised e s => (Raised e s, tr, w1)
    end.
Proof.
  unfold bind. rewrite run_pbind.
  destruct (run world (m self) w) as [[[a s|e s] tr] w1]; [reflexivity|].
  cbn. now rewrite app_nil_r.
Qed.

(** One synthesis is one chat exchange; a failure is absorbed. *)
Lemma run_synthesize (prompt : string) (self : QueryProcessor) (w : W) :
  exists reply w',
    run world (synthesize prompt no_context self) w
    = (match finish self prompt reply with
       | Normal a s => Normal (fst a) s
       | Raised e s => Raised e s
       end, [chat_event self prompt reply], w')
    /\ forall a s, finish self prompt reply = Normal a s -> snd a = history s.
Proof.
  assert (Hh : forall reply a s,
             finish self prompt reply = Normal a s -> snd a = history s)
    by (intros [c|] a s [= <- <-]; reflexivity).
  unfold chat_event, synthesize.
  destruct self as [h lr lq lf om vm vi].
  destruct h as [[|t h]|]; cbn;
    match goal with
    | |- context [on_chat world w ?a ?b ?c ?d] =>
        destruct (on_chat world w a b c d) as [reply w'] eqn:E
    end;
    exists reply, w'; (split; [destruct reply; reflexivity | apply Hh]).
Qed.

Lemma build_pipeline_ok self v filters limit candidates :
  exists pl, build_pipeline self v filters limit candidates = Ok pl.
Proof.
  unfold build_pipeline. destruct filters as [[|[k x] [|y fs]]|]; cbn; eauto.
Qed.

(** The tail shared by the reuse path and the fresh-retrieval path. *)
Lemma run_grounded (s : QueryProcessor) (prompt : string) (w : W) :
  exists reply w',
    run world
      ((response_message <- synthesize prompt no_context ;;
        self1 <- get_self ;; ret (response_message, history self1))%method
         s) w
    = (finish s prompt reply, [chat_event s prompt reply], w').
Proof.
  rewrite run_bind.
  destruct (run_synthesize prompt s w) as (reply & w' & -> & Hh).
  exists reply, w'.
  destruct (finish s prompt reply) as [[a h] s'|e s'] eqn:F.
  - specialize (Hh _ _ eq_refl). cbn in Hh. subst h. reflexivity.
  - reflexivity.
Qed.

Ltac grounded :=
  match goal with
  | |- context [run ?wd (bind (synthesize ?p no_context) _ ?s) ?w0] =>
      let reply := fresh "reply" in
      let w' := fresh "w'" in
      let R := fresh "R" in
      destruct (run_grounded s p w0) as (reply & w' & R);
      cbn in R |- *; rewrite R; cbn
  end.

Lemma run_turn (w : W) (self : QueryProcessor) (question : string)
  (hist : option (list Turn)) :
  let r := run world (retrieve_aggregate_facts dumps question hist self) w in
  turn dumps question hist self (trace_of r) (outcome_of r).
Proof.
  destruct (extract_filters question) as [filters|e] eqn:Hx;
    [|unfold retrieve_aggregate_facts; destruct hist; cbn; rewrite Hx; cbn;
      exact (T_extract_error dumps question _ self e Hx)].
  assert (Hent : forall A (k : unit -> M A),
    bind (match hist with
          | Some h => modify (set_history (Some h))
          | None => ret tt
          end) k self = k tt (enter hist self)).
  { intros A k. destruct hist; reflexivity. }
  unfold retrieve_aggregate_facts. rewrite Hent. clear Hent.
  assert (Hlr : last_results (enter hist self) = last_results self)
    by (destruct hist; reflexivity).
  cbn. rewrite Hx. cbn. rewrite Hlr.
  change (truthy_list (last_results self) && _is_followup question
          && negb (has_explicit_filter filters))
    with (reuses self question filters).
  destruct (reuses self question filters) eqn:Hr.
  - (* the reuse path *)
    grounded.
    exact (T_reuse dumps question hist self filters reply Hx Hr).
  - rewrite run_bind. destruct (is_direct filters) eqn:Hd.
    + (* direct lookup *)
      destruct filters as [[fs [|]]|]; try discriminate.
      destruct (ExtractFacts.extract_filters_direct _ _ Hx) as (m & -> & _).
      unfold fresh_retrieval. cbn.
      destruct (on_find_one world w [("_id", VStr m)]) as [[d|] w1]; cbn.
      * destruct d as [[|f d]|]; cbn.
        -- exact (T_lookup_miss dumps question hist self m (Some []) Hx
                    eq_refl).
        -- grounded.
           exact (T_lookup_hit dumps question hist self m (f :: d) reply Hx
                    eq_refl).
        -- exact (T_lookup_miss dumps question hist self m None Hx eq_refl).
      * exact (T_lookup_error dumps question hist self m Hx).
    + (* vector search *)
      unfold fresh_retrieval. rewrite Hd. cbn.
      destruct (on_embed world w (voyage_model (enter hist self))
                  (_build_retrieval_query (enter hist self) question 4%Z))
        as [[v|] w1]; cbn.
      * destruct (build_pipeline_ok (enter hist self) v
                    (filter_list_of filters) 5%Z 400%Z) as [pl Hp].
        pose proof Hp as Hp'. unfold filter_list_of in Hp'.
        rewrite Hp'. cbn.
        destruct (on_aggregate world w1 pl) as [[cands|] w2]; cbn.
        -- destruct (collect dumps default_min_score cands [])
             as [[|r results]|e] eqn:Hc; cbn.
           ++ exact (T_search_empty dumps question hist self filters v pl
                       cands Hx Hr Hd Hp Hc).
           ++ grounded.
              exact (T_search_hit dumps question hist self filters v pl
                       cands r results reply Hx Hr Hd Hp Hc).
           ++ exact (T_search_type_error dumps question hist self filters v
                       pl cands e Hx Hr Hd Hp Hc).
        -- exact (T_search_error dumps question hist self filters v pl
                    Hx Hr Hd Hp).
      * exact (T_embed_error dumps question hist self filters Hx Hr Hd).
Qed.
End Orchestration.
End TurnFacts.

(** ** Consequences of the turn rules *)

#[local] Arguments grounding_prompt : simpl never.
#[local] Arguments Text.join : simpl never.
#[local] Arguments truncate_history : simpl never.
#[local] Arguments _build_retrieval_query : simpl never.
#[local] Arguments dict_pop : simpl never.
#[local] Arguments enter : simpl never.

Module TurnTactics.

(** Case analysis on how a given turn went, by the rules of [turn]. *)
Ltac turn_cases dumps world w self question hist :=
  let T := fresh "T" in
  pose proof (TurnFacts.run_turn dumps _ world w self question hist) as T;
  cbv zeta in T;
  match type of T with
  | turn _ _ _ _ (trace_of ?x) _ =>
      let tr := fresh "tr" in
      let out := fresh "out" in
      set (tr := trace_of x) in *;
      set (out := outcome_of x) in *;
      clearbody tr out; destruct T;
      repeat match goal with x := _ |- _ => subst x end;
      try (match goal with
           | H1 : extract_filters ?q = Throw _,
             H2 : extract_filters ?q = Ok _ |- _ =>
               rewrite H2 in H1; discriminate H1
           end)
  end.

(** Which exchange of the trace a membership hypothesis speaks of. *)
Ltac pick_event H :=
  unfold chat_event in H; simpl In in H;
  repeat (destruct H as [H|H]; [try discriminate H|]);
  try contradiction H.

(** Identify every extraction result in the context with the one of
    [Hx]. *)
Ltac same_extraction Hx :=
  repeat match goal with
         | H : extract_filters _ = Ok _ |- _ =>
             rewrite Hx in H; inversion H; subst; clear H
         end.

Ltac conjs := repeat match goal with |- _ /\ _ => split end.

End TurnTactics.
Import TurnTactics.

Lemma enter_fields (hist : option (list Turn)) (self : QueryProcessor) :
  last_results (enter hist self) = last_results self
  /\ last_question (enter hist self) = last_question self
  /\ last_filters (enter hist self) = last_filters self
  /\ openai_model (enter hist self) = openai_model self
  /\ history (enter hist self)
     = match hist with Some h => Some h | None => history self end.
Proof. destruct hist; repeat split. Qed.

Lemma reuses_absent (self : QueryProcessor) (question : string) :
  truthy_list (last_results self) = true ->
  _is_followup question = true ->
  reuses self question None = true.
Proof. intros H1 H2. unfold reuses. now rewrite H1, H2. Qed.

Lemma dict_get_pop (key : string) (d : doc) :
  dict_get key (dict_pop key d) = None.
Proof.
  unfold dict_pop. induction d as [|[k v] d IH]; [reflexivity|].
  cbn. destruct (String.eqb k key) eqn:E; cbn; [exact IH|].
  now rewrite E.
Qed.

Section Collect.
Variable dumps : doc -> string.

Lemma collect_ok (min_score : Q) (candidates : list doc)
  (output res : list string) :
  collect dumps min_score candidates output = Ok res ->
  res = output ++ map dumps (filter (above min_score) candidates).
Proof.
  revert output. induction candidates as [|d l IH]; intros output; cbn.
  - intros [= <-]. now rewrite app_nil_r.
  - unfold above. destruct (score_ge (score_of d) min_score) as [[|]|].
    + intros H. rewrite (IH _ H). cbn. now rewrite <- app_assoc.
    + apply IH.
    + discriminate.
Qed.

Lemma collect_below (min_score : Q) (candidates : list doc)
  (output : list string) :
  Forall (fun d => exists q, score_value d = Some q /\ (q < min_score)%Q)
         candidates ->
  collect dumps min_score candidates output = Ok output.
Proof.
  induction 1 as [|d l (q & Hq & Hlt) _ IH]; [reflexivity|]. cbn.
  assert (E : score_ge (score_of d) min_score = Some false).
  { unfold score_value in Hq. unfold score_ge.
    destruct (score_of d); try discriminate; injection Hq as <-; f_equal;
      apply not_true_is_false; intros Hle; apply Qle_bool_iff in Hle;
      exact (Qlt_not_le _ _ Hlt Hle). }
  now rewrite E.
Qed.

End Collect.

Lemma above_score (min_score : Q) (d : doc) :
  above min_score d = true ->
  exists q, score_value d = Some q /\ (min_score <= q)%Q.
Proof.
  unfold above, score_value, score_ge.
  destruct (score_of d); try discriminate.
  - destruct (Qle_bool min_score (inject_Z n)) eqn:E; [|discriminate].
    intros _. eexists. split; [reflexivity | now apply Qle_bool_iff].
  - destruct (Qle_bool min_score q) eqn:E; [|discriminate].
    intros _. eexists. split; [reflexivity | now apply Qle_bool_iff].
Qed.

Lemma build_pipeline_spec (self : QueryProcessor) (v : vector)
  (filters : option (list Filter)) (limit candidates : Z)
  (pipeline : list Stage) :
  build_pipeline self v filters limit candidates = Ok pipeline ->
  pipeline
  = [ SVectorSearch
        {| vs_index := vector_index self;
           vs_path := "embedding";
           vs_queryVector := v;
           vs_limit := limit;
           vs_numCandidates := candidates;
           vs_filter := combined_filter filters |};
      SProject projection;
      SSort "score" (-1)%Z ].
Proof.
  unfold build_pipeline.
  destruct filters as [[|[k x] [|y fs]]|]; cbn; now intros [= <-].
Qed.

Lemma truncate_history_spec (h : list Turn) :
  truncate_history (Some h)
  = Some (if 8 <? length h then last_n 6 h else h).
Proof.
  unfold truncate_history. cbn [list_of].
  destruct (8 <? length h) eqn:E.
  - apply Nat.ltb_lt in E. destruct h as [|t h]; [cbn in E; lia|].
    cbn [truthy_list andb]. f_equal. unfold Text.slice_from, last_n.
    change (-6 <? 0)%Z with true. cbv iota. f_equal. lia.
  - now rewrite andb_false_r.
Qed.

Lemma truncate_history_length (h : list Turn) :
  length (list_of (truncate_history (Some h))) <= 8
  /\ (8 < length h -> length (list_of (truncate_history (Some h))) = 6).
Proof.
  rewrite truncate_history_spec. cbn [list_of].
  destruct (8 <? length h) eqn:E.
  - apply Nat.ltb_lt in E. unfold last_n. rewrite length_skipn. lia.
  - apply Nat.ltb_ge in E. lia.
Qed.

(** A turn that starts without history sends a one-message conversation
    to the chat model. *)
Lemma no_history_fresh_chat (dumps : doc -> string) (W : Type)
  (world : World W) (w : W) (self : QueryProcessor) (question : string)
  (model : string) (messages : list Turn) (temperature : Q) (max_tokens : Z)
  (reply : option (option string)) :
  history self = None ->
  In (EvChat model messages temperature max_tokens reply)
     (trace_of (run world
                    (retrieve_aggregate_facts dumps question None self) w)) ->
  exists prompt, messages = [mkTurn "user" prompt].
Proof.
  intros Hh Hin.
  turn_cases dumps world w self question (@None (list Turn));
    pick_event Hin; injection Hin as <- <- <- <- <-;
    cbn; unfold enter; rewrite Hh; cbn; eauto.
Qed.

(** ** Stripping and slicing *)

Module StripFacts.
Import Text TextFacts.

Lemma rstrip_keep (c : ascii) (x : string) :
  is_space c = false -> rstrip (String c x) = String c (rstrip x).
Proof. intros H. simpl. rewrite H. now destruct (rstrip x). Qed.

Lemma rstrip_after (a x : string) (c : ascii) :
  is_space c = false ->
  rstrip (a ++ String c x) = (a ++ String c (rstrip x))%string.
Proof.
  intros H. induction a as [|d a IH]; [now apply rstrip_keep|].
  cbn [append rstrip]. rewrite IH. now destruct a.
Qed.

Lemma rstrip_fixed (c : ascii) (x : string) :
  x <> "" -> rstrip x = x -> rstrip (String c x) = String c x.
Proof.
  intros Hne Hx. simpl. rewrite Hx. destruct x; [congruence | reflexivity].
Qed.

(** Stripping the formatted query only affects what follows the colon of
    [Current question:]. *)
Lemma strip_query (convo x : string) :
  strip ("Conversation context:" ++ nl ++ convo ++ nl ++ nl
         ++ "Current question:" ++ x)
  = ("Conversation context:" ++ nl ++ convo ++ nl ++ nl
     ++ "Current question:" ++ rstrip x)%string.
Proof.
  unfold strip.
  change (lstrip ("Conversation context:" ++ nl ++ convo ++ nl ++ nl
                  ++ "Current question:" ++ x))
    with ("Conversation context:" ++ nl ++ convo ++ nl ++ nl
          ++ "Current question:" ++ x)%string.
  change (nl ++ nl ++ "Current question:" ++ x)%string
    with ((nl ++ nl ++ "Current question") ++ String ":" x)%string.
  change (nl ++ nl ++ "Current question:" ++ rstrip x)%string
    with ((nl ++ nl ++ "Current question") ++ String ":" (rstrip x))%string.
  rewrite <- !append_assoc.
  now apply rstrip_after.
Qed.

Lemma slice_last {A : Type} (m : Z) (l : list A) :
  (1 <= m)%Z -> slice_from (- m) l = last_n (Z.to_nat m) l.
Proof.
  intros Hm. unfold slice_from, last_n.
  replace (- m <? 0)%Z with true by (symmetry; apply Z.ltb_lt; lia).
  f_equal. lia.
Qed.

End StripFacts.

(** ** The model on the specification's scenarios *)

Example extract_three_filters :
  extract_filters "Show listings with beds=2 bedrooms=1 market=Paris"
  = Ok (Some ([("address.market", VStr "Paris"); ("beds", VInt 2);
               ("bedrooms", VInt 1)], false)).
Proof. reflexivity. Qed.

Example extract_identifier_only :
  extract_filters "id=12345678"
  = Ok (Some ([("_id", VStr "12345678")], true)).
Proof. reflexivity. Qed.

Example extract_nothing :
  extract_filters "cheap places in Paris" = Ok None.
Proof. reflexivity. Qed.

Example extract_stops_at_space_and_comma :
  extract_filters "market=New York, country=US,CA"
  = Ok (Some ([("address.country_code", VStr "US");
               ("address.market", VStr "New")], false)).
Proof. reflexivity. Qed.

Example followup_pricing : _is_followup "  What ABOUT pricing? " = true.
Proof. reflexivity. Qed.

Example followup_empty : _is_followup "" = false.
Proof. reflexivity. Qed.

Example query_without_history :
  _build_retrieval_query Demo.started "cheap places in Paris" 4%Z
  = "cheap places in Paris".
Proof. reflexivity. Qed.

Example window_keeps_last_six :
  option_map (map content)
    (truncate_history
       (Some (list_of (history Demo.long_talk)
              ++ [mkTurn "user" "q5"; mkTurn "assistant" "a5"])))
  = Some ["q3"; "a3"; "q4"; "a4"; "q5"; "a5"].
Proof. reflexivity. Qed.

(** * The claims *)

(** C1: when [last_results] is non-empty, the question is classified as a
    follow-up and [extract_filters] returns nothing, a turn is exactly one
    chat exchange.  The messages sent are the conversation so far (the
    [history] argument when one is passed, the instance's own otherwise)
    followed by one user message, which is, character for character, the
    instruction line, [Context:], the entries of [last_results] joined by
    newlines, a blank line, [Question:] and the question.  There is no
    embedding call, no vector search and no lookup; the answer is the
    model's reply (the sentinel if the call failed), and [last_results],
    [last_question] and [last_filters] are what they were before the
    turn. *)
Theorem C1_followup_reuses_last_results :
  forall (dumps : doc -> string) (W : Type) (world : World W) (w : W)
         (self : QueryProcessor) (question : string)
         (hist : option (list Turn)),
    truthy_list (last_results self) = true ->
    _is_followup question = true ->
    extract_filters question = Ok None ->
    let r := run world (retrieve_aggregate_facts dumps question hist self) w in
    let newline := String "010"%char EmptyString in
    let context := String.concat newline (list_of (last_results self)) in
    let prompt :=
      ("Use the following context to answer the question." ++ newline
       ++ "Context:" ++ newline ++ context ++ newline ++ newline
       ++ "Question:" ++ newline ++ question)%string in
    let conversation :=
      match hist with
      | Some h => h
      | None => match history self with Some h => h | None => [] end
      end in
    exists reply answer self',
      outcome_of r = Normal (answer, history self') self'
      /\ trace_of r
         = [EvChat (openai_model self)
                   (conversation ++ [mkTurn "user" prompt])
                   (3 # 10)%Q 800%Z reply]
      /\ calls OfEmbedding (trace_of r) = 0
      /\ calls OfVectorSearch (trace_of r) = 0
      /\ calls OfLookup (trace_of r) = 0
      /\ answer = match reply with
                  | Some (Some text) => text
                  | Some None => EmptyString
                  | None => "no context from vectors"
                  end
      /\ last_results self' = last_results self
      /\ last_question self' = last_question self
      /\ last_filters self' = last_filters self.
Proof.
  intros dumps W world w self question hist Hlr Hf Hx r newline context
         prompt conversation.
  subst r.
  pose proof (reuses_absent self question Hlr Hf) as Hr.
  destruct (enter_fields hist self) as (E1 & E2 & E3 & E4 & E5).
  assert (Hp : grounding_prompt (Text.join nl (list_of (last_results self)))
                                question = prompt) by reflexivity.
  assert (Hc : list_of (history (enter hist self)) = conversation)
    by (rewrite E5; subst conversation; destruct hist; reflexivity).
  turn_cases dumps world w self question hist;
    try congruence;
    try (assert (filters = None) by congruence; subst filters; congruence).
  assert (filters = None) by congruence; subst filters.
  exists reply. unfold chat_event. rewrite E4, Hp, Hc.
  destruct reply as [[text|]|]; cbn;
    eexists _, (set_history _ (enter hist self));
    repeat match goal with |- _ /\ _ => split end;
    try reflexivity; cbn; assumption.
Qed.

Lemma C1_followup_reuses_last_results_witness :
  let world := Demo.world (Some (Some "About 80 euros a night.")) None [] in
  let self := Demo2.two_cached in
  let question := "what about pricing?" in
  let r := run world
               (retrieve_aggregate_facts Demo.dumps question None self) 0 in
  let newline := String "010"%char EmptyString in
  let prompt :=
    ("Use the following context to answer the question." ++ newline
     ++ "Context:" ++ newline
     ++ "Horto flat" ++ newline
     ++ "Ribeira Charming Duplex" ++ newline ++ newline
     ++ "Question:" ++ newline ++ "what about pricing?")%string in
  truthy_list (last_results self) = true
  /\ _is_followup question = true
  /\ extract_filters question = Ok None
  /\ exists reply answer self',
       outcome_of r = Normal (answer, history self') self'
       /\ trace_of r
          = [EvChat "gpt-4o-mini"
                    ([mkTurn "user" "cheap places in Porto";
                      mkTurn "assistant" "Two listings match."]
                     ++ [mkTurn "user" prompt])
                    (3 # 10)%Q 800%Z reply]
       /\ calls OfEmbedding (trace_of r) = 0
       /\ calls OfVectorSearch (trace_of r) = 0
       /\ calls OfLookup (trace_of r) = 0
       /\ answer = match reply with
                   | Some (Some text) => text
                   | Some None => EmptyString
                   | None => "no context from vectors"
                   end
       /\ last_results self' = last_results self
       /\ last_question self' = last_question self
       /\ last_filters self' = last_filters self.
Proof.
  cbv zeta. split; [reflexivity|]. split; [reflexivity|].
  split; [reflexivity|].
  exact (C1_followup_reuses_last_results Demo.dumps nat
           (Demo.world (Some (Some "About 80 euros a night.")) None [])
           0 Demo2.two_cached "what about pricing?" None
           eq_refl eq_refl eq_refl).
Defined.

(** C2: a question that contains [id=] (in either case) followed by eight
    digits makes [extract_filters] return exactly one filter, on the
    identifier field [_id], together with [is_direct_lookup = True],
    whatever else the question contains and wherever the token stands.
    The value is a run of eight digits that follows an [id=] of the
    question. *)
Theorem C2_identifier_short_circuits :
  forall pre kw digits post : string,
    Text.lower kw = "id=" ->
    String.length digits = 8 ->
    all_chars Text.is_digit digits = true ->
    exists m,
      extract_filters (pre ++ kw ++ digits ++ post)
      = Ok (Some ([("_id", VStr m)], true))
      /\ String.length m = 8
      /\ all_chars Text.is_digit m = true
      /\ exists pre' kw' post',
           (pre ++ kw ++ digits ++ post)%string
           = (pre' ++ kw' ++ m ++ post')%string
           /\ Text.lower kw' = "id=".
Proof.
  intros pre kw digits post Hkw Hlen Hd.
  set (question := (pre ++ kw ++ digits ++ post)%string).
  assert (Hat : Re.match_at id_pattern (kw ++ digits ++ post) = Some digits).
  { unfold Re.match_at. simpl Re.lit.
    rewrite (TextFacts.match_lit_complete "id=" kw _ Hkw).
    pose proof (TextFacts.take_exactly_complete _ digits post Hd) as T.
    rewrite Hlen in T. exact T. }
  destruct (TextFacts.search_complete id_pattern pre _ _ Hat) as (g & Hs).
  assert (Hg : String.length g = 8 /\ all_chars Text.is_digit g = true).
  { destruct (TextFacts.search_sound _ _ _ Hs) as (p0 & r0 & _ & Hm).
    unfold Re.match_at in Hm.
    destruct (Re.match_lit (Re.lit id_pattern) r0); [|discriminate].
    apply TextFacts.take_exactly_sound in Hm as (Hl & Ha & _). now split. }
  destruct Hg as [Hgl Hgd].
  assert (Ht : truthy_str (_split_filters id_pattern question) = Some g).
  { unfold _split_filters. fold question in Hs. rewrite Hs.
    rewrite TextFacts.before_comma_id
      by (revert Hgd; apply TextFacts.all_chars_impl,
                        TextFacts.digit_not_comma).
    apply ExtractFacts.truthy_str_nonempty. intros ->. discriminate. }
  exists g. split; [|split; [exact Hgl | split; [exact Hgd|]]].
  - unfold extract_filters. fold question. now rewrite Ht.
  - now destruct (ExtractFacts.id_match_value _ _ Ht) as (_ & _ & He).
Qed.

Lemma C2_identifier_short_circuits_witness :
  Text.lower "ID=" = "id="
  /\ String.length "10006546" = 8
  /\ all_chars Text.is_digit "10006546" = true
  /\ exists m,
       extract_filters "country=PT market=Porto Id=10006546 beds=2"
       = Ok (Some ([("_id", VStr m)], true))
       /\ String.length m = 8
       /\ all_chars Text.is_digit m = true
       /\ exists pre' kw' post',
            "country=PT market=Porto Id=10006546 beds=2"
            = (pre' ++ kw' ++ m ++ post')%string
            /\ Text.lower kw' = "id=".
Proof.
  split; [reflexivity | split; [reflexivity | split; [reflexivity|]]].
  apply (C2_identifier_short_circuits
           "country=PT market=Porto " "Id=" "10006546" " beds=2");
    reflexivity.
Defined.

(** C3: when extraction reports a direct lookup, the turn starts with one
    [find_one] on the extracted identifier and makes no embedding call and
    no vector search.  If a record comes back, its [embedding] field is
    removed and its serialization is the only retrieval result (it is the
    context of the prompt and becomes [last_results]); if none comes back
    the turn ends normally with the sentinel and no further exchange. *)
Theorem C3_direct_lookup :
  forall (dumps : doc -> string) (W : Type) (world : World W) (w : W)
         (self : QueryProcessor) (question : string)
         (hist : option (list Turn)) (fs : list Filter),
    extract_filters question = Ok (Some (fs, true)) ->
    let r := run world (retrieve_aggregate_facts dumps question hist self) w in
    let s := enter hist self in
    exists m reply rest,
      fs = [("_id", VStr m)]
      /\ trace_of r = EvFindOne [("_id", VStr m)] reply :: rest
      /\ calls OfLookup (trace_of r) = 1
      /\ calls OfEmbedding (trace_of r) = 0
      /\ calls OfVectorSearch (trace_of r) = 0
      /\ match reply with
         | Some (Some (f :: d)) =>
             let stripped := dict_pop "embedding" (f :: d) in
             let s1 := set_last (Some [dumps stripped]) (Some question)
                                (Some (fs, true)) s in
             dict_get "embedding" stripped = None
             /\ exists chat_reply answer self',
                  outcome_of r = Normal answer self'
                  /\ rest = [chat_event s1
                               (grounding_prompt
                                  (Text.join nl [dumps stripped]) question)
                               chat_reply]
                  /\ last_results self' = Some [dumps stripped]
         | Some _ =>
             rest = [] /\ outcome_of r = Normal (no_context, history s) s
         | None =>
             rest = [] /\ outcome_of r = Raised ServiceError s
         end.
Proof.
  intros dumps W world w self question hist fs Hx r s. subst r s.
  destruct (ExtractFacts.extract_filters_direct _ _ Hx) as (m & -> & _).
  exists m.
  turn_cases dumps world w self question hist; same_extraction Hx;
    try (match goal with
         | H : is_direct _ = false |- _ => discriminate H
         end).
  - (* a question with a filter never takes the reuse path *)
    match goal with
    | H : reuses _ _ _ = true |- _ =>
        unfold reuses in H; cbn in H; rewrite andb_false_r in H;
        discriminate H
    end.
  - eexists None, []. conjs; reflexivity.
  - exists (Some d), []. conjs; try reflexivity.
    destruct d as [[|f d]|]; try discriminate; split; reflexivity.
  - eexists (Some (Some d)), _. conjs; try reflexivity.
    destruct d as [|f d]; [discriminate|]. cbv zeta.
    split; [apply dict_get_pop|].
    exists reply. destruct reply as [c|]; cbn;
      eexists _, (set_history _ _); conjs; reflexivity.
Qed.

Lemma C3_direct_lookup_witness :
  let world := Demo.world (Some (Some "A duplex in Porto."))
                          (Some Demo.listing) [] in
  let question := "tell me about id=10006546" in
  let r := run world
               (retrieve_aggregate_facts Demo.dumps question None
                                         Demo.started) 0 in
  extract_filters question = Ok (Some ([("_id", VStr "10006546")], true))
  /\ trace_of r
     = [EvFindOne [("_id", VStr "10006546")] (Some (Some Demo.listing));
        chat_event
          (set_last (Some ["Ribeira Charming Duplex"]) (Some question)
                    (Some ([("_id", VStr "10006546")], true)) Demo.started)
          (grounding_prompt "Ribeira Charming Duplex" question)
          (Some (Some "A duplex in Porto."))]
  /\ calls OfLookup (trace_of r) = 1
  /\ calls OfEmbedding (trace_of r) = 0
  /\ calls OfVectorSearch (trace_of r) = 0.
Proof.
  cbv zeta. split; [reflexivity|].
  destruct (C3_direct_lookup Demo.dumps nat
              (Demo.world (Some (Some "A duplex in Porto."))
                          (Some Demo.listing) [])
              0 Demo.started "tell me about id=10006546" None
              [("_id", VStr "10006546")] eq_refl)
    as (m & reply & rest & _ & _ & H1 & H2 & H3 & _).
  split; [reflexivity|]. split; [exact H1|]. split; [exact H2 | exact H3].
Defined.

(** C4: a turn whose chat call raises ends normally (the exception is
    caught, nothing is propagated), returns the sentinel assigned at the
    start of the turn together with a [None] history, leaves
    [self.history = None], and made exactly one chat call (no retry).  The
    next turn called without a history argument therefore builds its
    retrieval query from the question alone and sends the chat model a
    conversation of a single user message. *)
Theorem C4_synthesis_failure_resets_history :
  forall (dumps : doc -> string) (W : Type) (world : World W) (w : W)
         (self : QueryProcessor) (question : string)
         (hist : option (list Turn))
         (model : string) (messages : list Turn) (temperature : Q)
         (max_tokens : Z),
    let r := run world (retrieve_aggregate_facts dumps question hist self) w in
    In (EvChat model messages temperature max_tokens None) (trace_of r) ->
    exists self',
      outcome_of r = Normal (no_context, None) self'
      /\ history self' = None
      /\ calls OfGeneration (trace_of r) = 1
      /\ (forall question', _build_retrieval_query self' question' 4%Z
                            = question')
      /\ forall (W' : Type) (world' : World W') (w' : W')
                (question' : string) m ms t mt reply,
           In (EvChat m ms t mt reply)
              (trace_of (run world'
                             (retrieve_aggregate_facts dumps question' None
                                                       self') w')) ->
           exists prompt, ms = [mkTurn "user" prompt].
Proof.
  intros dumps W world w self question hist model messages temperature
         max_tokens r Hin. subst r.
  turn_cases dumps world w self question hist;
    pick_event Hin; injection Hin as ? ? ? ? ?; subst;
    (eexists (set_history None _); conjs;
      [ reflexivity | reflexivity | reflexivity | reflexivity
      | intros ? ? ? ? ? ? ? ? ? Hin';
        eapply no_history_fresh_chat; [|exact Hin']; reflexivity ]).
Qed.

Lemma C4_synthesis_failure_resets_history_witness :
  let world := Demo.world None None [] in
  let question := "what about pricing?" in
  let r := run world
               (retrieve_aggregate_facts Demo.dumps question None
                                         Demo.talking) 0 in
  In (EvChat "gpt-4o-mini" (Demo.followup_messages Demo.talking question)
             (3 # 10)%Q 800%Z None)
     (trace_of r)
  /\ exists self',
       outcome_of r = Normal (no_context, None) self'
       /\ history self' = None
       /\ calls OfGeneration (trace_of r) = 1.
Proof.
  cbv zeta.
  assert (Hin : In (EvChat "gpt-4o-mini"
                      (Demo.followup_messages Demo.talking
                                              "what about pricing?")
                      (3 # 10)%Q 800%Z None)
                   (trace_of
                      (run (Demo.world None None [])
                           (retrieve_aggregate_facts Demo.dumps
                              "what about pricing?" None Demo.talking) 0)))
    by (left; reflexivity).
  split; [exact Hin|].
  destruct (C4_synthesis_failure_resets_history Demo.dumps nat
              (Demo.world None None []) 0 Demo.talking
              "what about pricing?" None "gpt-4o-mini"
              (Demo.followup_messages Demo.talking "what about pricing?")
              (3 # 10)%Q 800%Z Hin)
    as (self' & H1 & H2 & H3 & _).
  exists self'. split; [exact H1|]. split; [exact H2 | exact H3].
Defined.

(** C5: a turn whose fresh retrieval is empty (a lookup that finds no
    record, or a vector search whose candidates all score below the
    threshold) makes no chat call, returns the sentinel
    ["no context from vectors"], leaves [last_results], [last_question]
    and [last_filters] as they were, and returns the history the turn
    started from with nothing appended. *)
Theorem C5_empty_retrieval_returns_sentinel :
  forall (dumps : doc -> string) (W : Type) (world : World W) (w : W)
         (self : QueryProcessor) (question : string)
         (hist : option (list Turn)),
    let r := run world (retrieve_aggregate_facts dumps question hist self) w in
    (exists e, In e (trace_of r) /\ empty_retrieval e) ->
    exists self',
      outcome_of r = Normal (no_context, history self') self'
      /\ calls OfGeneration (trace_of r) = 0
      /\ last_results self' = last_results self
      /\ last_question self' = last_question self
      /\ last_filters self' = last_filters self
      /\ history self' = match hist with
                         | Some h => Some h
                         | None => history self
                         end.
Proof.
  intros dumps W world w self question hist r (e & Hin & He). subst r.
  destruct (enter_fields hist self) as (E1 & E2 & E3 & _ & E5).
  turn_cases dumps world w self question hist;
    pick_event Hin; subst e; cbn in He; try contradiction;
    try (match goal with
         | H : collect _ _ _ _ = _ |- _ =>
             rewrite (collect_below dumps _ _ _ He) in H; discriminate H
         end);
    unfold found in *; try congruence;
    exists (enter hist self); conjs; (reflexivity || assumption).
Qed.

Lemma C5_empty_retrieval_returns_sentinel_witness :
  let world := Demo.world (Some (Some "unused")) None [Demo.far] in
  let question := "a place in Brooklyn" in
  let r := run world
               (retrieve_aggregate_facts Demo.dumps question None
                                         Demo.talking) 0 in
  (exists e, In e (trace_of r) /\ empty_retrieval e)
  /\ exists self',
       outcome_of r = Normal (no_context, history self') self'
       /\ calls OfGeneration (trace_of r) = 0
       /\ last_results self' = last_results Demo.talking
       /\ last_question self' = last_question Demo.talking
       /\ last_filters self' = last_filters Demo.talking
       /\ history self' = history Demo.talking.
Proof.
  cbv zeta.
  assert (He : exists e,
             In e (trace_of
                     (run (Demo.world (Some (Some "unused")) None
                                      [Demo.far])
                          (retrieve_aggregate_facts Demo.dumps
                             "a place in Brooklyn" None Demo.talking) 0))
             /\ empty_retrieval e).
  { exists (EvAggregate (Demo.pipeline_with None) (Some [Demo.far])).
    split; [right; left; reflexivity|].
    constructor; [|constructor].
    exists (2 # 5)%Q. split; reflexivity. }
  split; [exact He|].
  exact (C5_empty_retrieval_returns_sentinel Demo.dumps nat
           (Demo.world (Some (Some "unused")) None [Demo.far]) 0
           Demo.talking "a place in Brooklyn" None He).
Defined.

(** C6: after a synthesis that succeeded, the history is the conversation
    sent to the model plus the assistant's reply, cut to its last 6 turns
    when that is longer than 8 and left whole otherwise; so right after
    the check it never has more than 8 turns, whatever state the turn
    started from, and it has exactly 6 when the cut happened. *)
Theorem C6_history_window :
  forall (dumps : doc -> string) (W : Type) (world : World W) (w : W)
         (self : QueryProcessor) (question : string)
         (hist : option (list Turn))
         (model : string) (messages : list Turn) (temperature : Q)
         (max_tokens : Z) (c : option string),
    let r := run world (retrieve_aggregate_facts dumps question hist self) w in
    In (EvChat model messages temperature max_tokens (Some c))
       (trace_of r) ->
    let h := messages ++ [mkTurn "assistant" (content_or_empty c)] in
    exists answer self',
      outcome_of r = Normal (answer, history self') self'
      /\ history self' = Some (if 8 <? length h then last_n 6 h else h)
      /\ (8 < length h -> length (list_of (history self')) = 6)
      /\ length (list_of (history self')) <= 8.
Proof.
  intros dumps W world w self question hist model messages temperature
         max_tokens c r Hin h. subst r h.
  turn_cases dumps world w self question hist;
    pick_event Hin; injection Hin as ? ? ? ? ?; subst;
    (eexists _, (set_history _ _); split; [reflexivity|];
     cbn [history set_history];
     split; [apply truncate_history_spec|];
     match goal with
     | |- context [truncate_history (Some ?x)] =>
         destruct (truncate_history_length x)
     end;
     split; assumption).
Qed.

Lemma C6_history_window_witness :
  let world := Demo.world (Some (Some "About 80 euros a night.")) None [] in
  let question := "what about pricing?" in
  let messages := Demo.followup_messages Demo.long_talk question in
  let r := run world
               (retrieve_aggregate_facts Demo.dumps question None
                                         Demo.long_talk) 0 in
  let h := messages ++ [mkTurn "assistant" "About 80 euros a night."] in
  In (EvChat "gpt-4o-mini" messages (3 # 10)%Q 800%Z
             (Some (Some "About 80 euros a night.")))
     (trace_of r)
  /\ length h = 10
  /\ exists answer self',
       outcome_of r = Normal (answer, history self') self'
       /\ history self' = Some (last_n 6 h)
       /\ length (list_of (history self')) = 6.
Proof.
  cbv zeta.
  assert (Hin : In (EvChat "gpt-4o-mini"
                      (Demo.followup_messages Demo.long_talk
                                              "what about pricing?")
                      (3 # 10)%Q 800%Z
                      (Some (Some "About 80 euros a night.")))
                   (trace_of
                      (run (Demo.world (Some (Some "About 80 euros a night."))
                                       None [])
                           (retrieve_aggregate_facts Demo.dumps
                              "what about pricing?" None Demo.long_talk)
                           0)))
    by (left; reflexivity).
  split; [exact Hin|]. split; [reflexivity|].
  destruct (C6_history_window Demo.dumps nat
              (Demo.world (Some (Some "About 80 euros a night.")) None [])
              0 Demo.long_talk "what about pricing?" None "gpt-4o-mini"
              (Demo.followup_messages Demo.long_talk "what about pricing?")
              (3 # 10)%Q 800%Z (Some "About 80 euros a night.") Hin)
    as (answer & self' & H1 & H2 & H3 & _).
  exists answer, self'. split; [exact H1|]. split; [exact H2|].
  apply H3. cbv. repeat constructor.
Defined.

(** C7: every vector search of a turn carries the filter prescribed by the
    combination rule applied to the extracted filter list: none for an
    absent list, the equality match [{k: v}] for one pair, and
    [{"$and": [...]}] over all the pairs for several. *)
Theorem C7_filter_combination :
  forall (dumps : doc -> string) (W : Type) (world : World W) (w : W)
         (self : QueryProcessor) (question : string)
         (hist : option (list Turn)) (pipeline : list Stage)
         (reply : option (list doc)),
    let r := run world (retrieve_aggregate_facts dumps question hist self) w in
    In (EvAggregate pipeline reply) (trace_of r) ->
    exists filters vs,
      extract_filters question = Ok filters
      /\ pipeline = [SVectorSearch vs; SProject projection;
                     SSort "score" (-1)%Z]
      /\ vs_filter vs = combined_filter (filter_list_of filters)
      /\ match filter_list_of filters with
         | None => vs_filter vs = None
         | Some [] => vs_filter vs = None
         | Some [(k, v)] => vs_filter vs = Some (QEq k v)
         | Some ((k1, v1) :: (k2, v2) :: rest) =>
             vs_filter vs
             = Some (QAnd (QEq k1 v1 :: QEq k2 v2
                           :: map (fun kv => QEq (fst kv) (snd kv)) rest))
         end.
Proof.
  intros dumps W world w self question hist pipeline reply r Hin. subst r.
  turn_cases dumps world w self question hist;
    pick_event Hin; injection Hin as ? ?; subst;
    match goal with
    | H : build_pipeline _ _ _ _ _ = Ok _ |- _ =>
        apply build_pipeline_spec in H; subst
    end;
    (exists filters; eexists; conjs;
      [ assumption | reflexivity | reflexivity
      | cbn [vs_filter];
        destruct (filter_list_of filters) as [[|[k1 v1] [|[k2 v2] rest]]|];
        reflexivity ]).
Qed.

Lemma C7_filter_combination_witness :
  let world := Demo.world (Some (Some "One flat.")) None [Demo.near] in
  let question := "Show listings with beds=2 bedrooms=1 market=Paris" in
  let pipeline := Demo.pipeline_with (Some Demo.paris_filter) in
  let r := run world
               (retrieve_aggregate_facts Demo.dumps question None
                                         Demo.started) 0 in
  In (EvAggregate pipeline (Some [Demo.near])) (trace_of r)
  /\ exists filters vs,
       extract_filters question = Ok filters
       /\ pipeline = [SVectorSearch vs; SProject projection;
                      SSort "score" (-1)%Z]
       /\ vs_filter vs = combined_filter (filter_list_of filters)
       /\ match filter_list_of filters with
          | None => vs_filter vs = None
          | Some [] => vs_filter vs = None
          | Some [(k, v)] => vs_filter vs = Some (QEq k v)
          | Some ((k1, v1) :: (k2, v2) :: rest) =>
              vs_filter vs
              = Some (QAnd (QEq k1 v1 :: QEq k2 v2
                            :: map (fun kv => QEq (fst kv) (snd kv)) rest))
          end.
Proof.
  cbv zeta.
  assert (Hin : In (EvAggregate (Demo.pipeline_with (Some Demo.paris_filter))
                                (Some [Demo.near]))
                   (trace_of
                      (run (Demo.world (Some (Some "One flat.")) None
                                       [Demo.near])
                           (retrieve_aggregate_facts Demo.dumps
                              "Show listings with beds=2 bedrooms=1 market=Paris"
                              None Demo.started) 0)))
    by (right; left; reflexivity).
  split; [exact Hin|].
  exact (C7_filter_combination Demo.dumps nat
           (Demo.world (Some (Some "One flat.")) None [Demo.near]) 0
           Demo.started "Show listings with beds=2 bedrooms=1 market=Paris"
           None _ _ Hin).
Defined.

(** C8: every vector search of a turn asks for [limit = 5] and
    [numCandidates = 400], and its result is the serialization of exactly
    the candidates whose score is at least 1/2, in order: every kept
    candidate has a numeric score of at least 1/2 and no candidate with a
    score below 1/2 is kept.  When nothing is kept the turn returns the
    sentinel and [last_results] is untouched; otherwise [last_results]
    becomes the kept snippets. *)
Theorem C8_search_parameters_and_threshold :
  forall (dumps : doc -> string) (W : Type) (world : World W) (w : W)
         (self : QueryProcessor) (question : string)
         (hist : option (list Turn)) (pipeline : list Stage)
         (reply : option (list doc)),
    let r := run world (retrieve_aggregate_facts dumps question hist self) w in
    In (EvAggregate pipeline reply) (trace_of r) ->
    (exists vs rest,
        pipeline = SVectorSearch vs :: rest
        /\ vs_limit vs = 5%Z
        /\ vs_numCandidates vs = 400%Z)
    /\ forall candidates result self',
         reply = Some candidates ->
         outcome_of r = Normal result self' ->
         let kept := filter (above (1 # 2)) candidates in
         Forall (fun d => exists q, score_value d = Some q
                                    /\ (1 # 2 <= q)%Q) kept
         /\ (forall d q, In d candidates -> score_value d = Some q ->
                         (q < 1 # 2)%Q -> ~ In d kept)
         /\ match kept with
            | [] => result = (no_context, history self')
                    /\ last_results self' = last_results self
            | _ :: _ => last_results self' = Some (map dumps kept)
            end.
Proof.
  intros dumps W world w self question hist pipeline reply r Hin. subst r.
  assert (Hkept : forall candidates,
            let kept := filter (above (1 # 2)) candidates in
            Forall (fun d => exists q, score_value d = Some q
                                       /\ (1 # 2 <= q)%Q) kept
            /\ (forall d q, In d candidates -> score_value d = Some q ->
                            (q < 1 # 2)%Q -> ~ In d kept)).
  { intros candidates kept. subst kept. split.
    - apply Forall_forall. intros d Hd. apply filter_In in Hd as [_ Hd].
      now apply above_score.
    - intros d q _ Hq Hlt Hd. apply filter_In in Hd as [_ Hd].
      apply above_score in Hd as (q' & Hq' & Hle).
      rewrite Hq in Hq'. injection Hq' as <-.
      exact (Qlt_not_le _ _ Hlt Hle). }
  destruct (enter_fields hist self) as (E1 & _).
  turn_cases dumps world w self question hist;
    pick_event Hin; injection Hin as ? ?; subst;
    (split;
     [ match goal with
       | H : build_pipeline _ _ _ _ _ = Ok _ |- _ =>
           apply build_pipeline_spec in H; subst
       end; eexists _, _; conjs; reflexivity
     | intros candidates0 result self' Hc Ho;
       first [ discriminate Hc | discriminate Ho
             | injection Hc as <-;
               destruct (Hkept candidates) as [K1 K2];
               cbv zeta; conjs; [exact K1 | exact K2 |] ] ]).
  - (* nothing above the threshold *)
    match goal with
    | H : collect _ _ _ _ = Ok _ |- _ =>
        apply collect_ok in H; cbn in H; rename H into Hk;
        unfold default_min_score in Hk
    end.
    injection Ho as <- <-.
    destruct (filter (above (1 # 2)) candidates); [|discriminate Hk].
    now split.
  - (* at least one candidate above the threshold *)
    match goal with
    | H : collect _ _ _ _ = Ok _ |- _ =>
        apply collect_ok in H; cbn in H; rename H into Hk;
        unfold default_min_score in Hk
    end.
    assert (Hl : last_results self'
                 = Some (map dumps (filter (above (1 # 2)) candidates))).
    { destruct reply0; cbn in Ho; injection Ho as _ <-; cbn; congruence. }
    destruct (filter (above (1 # 2)) candidates);
      [discriminate Hk | exact Hl].
Qed.

Lemma C8_search_parameters_and_threshold_witness :
  let world := Demo.world (Some (Some "One flat.")) None
                          [Demo.near; Demo.far] in
  let question := "a flat near the river" in
  let pipeline := Demo.pipeline_with None in
  let r := run world
               (retrieve_aggregate_facts Demo.dumps question None
                                         Demo.started) 0 in
  In (EvAggregate pipeline (Some [Demo.near; Demo.far])) (trace_of r)
  /\ (exists vs rest,
         pipeline = SVectorSearch vs :: rest
         /\ vs_limit vs = 5%Z
         /\ vs_numCandidates vs = 400%Z)
  /\ filter (above (1 # 2)) [Demo.near; Demo.far] = [Demo.near]
  /\ exists result self',
       outcome_of r = Normal result self'
       /\ last_results self' = Some ["Horto flat"].
Proof.
  cbv zeta.
  assert (Hin : In (EvAggregate (Demo.pipeline_with None)
                                (Some [Demo.near; Demo.far]))
                   (trace_of
                      (run (Demo.world (Some (Some "One flat.")) None
                                       [Demo.near; Demo.far])
                           (retrieve_aggregate_facts Demo.dumps
                              "a flat near the river" None Demo.started)
                           0)))
    by (right; left; reflexivity).
  split; [exact Hin|].
  destruct (C8_search_parameters_and_threshold Demo.dumps nat
              (Demo.world (Some (Some "One flat.")) None
                          [Demo.near; Demo.far]) 0
              Demo.started "a flat near the river" None _ _ Hin)
    as [Hp Hk].
  split; [exact Hp|]. split; [reflexivity|].
  eexists _, _. split; [reflexivity|].
  destruct (Hk [Demo.near; Demo.far] _ _ eq_refl eq_refl) as (_ & _ & Hl).
  exact Hl.
Defined.

(** C9 (amended): for [max_messages >= 1], [_build_retrieval_query] returns
    the question unchanged when the history is empty or [None], and
    otherwise the text
    [Conversation context:\n<rendered>\n\nCurrent question:\n<question>]
    with its trailing whitespace removed by [str.strip], where
    [<rendered>] is the last [max_messages] turns, oldest first, each as
    [<role>: <content>], joined by newlines.  The result is exactly that
    text whenever the question is non-empty and does not end in
    whitespace. *)
Theorem C9_retrieval_query_is_stripped :
  forall (self : QueryProcessor) (question : string) (max_messages : Z),
    (1 <= max_messages)%Z ->
    _build_retrieval_query self question max_messages
    = match history self with
      | None | Some [] => question
      | Some h =>
          ("Conversation context:" ++ nl
           ++ Text.join nl (map render_turn
                              (last_n (Z.to_nat max_messages) h))
           ++ nl ++ nl ++ "Current question:"
           ++ Text.rstrip (nl ++ question))%string
      end
    /\ (forall h,
          history self = Some h -> h <> [] ->
          question <> "" -> Text.rstrip question = question ->
          _build_retrieval_query self question max_messages
          = spec_retrieval_query h question (Z.to_nat max_messages)).
Proof.
  intros self question max_messages Hm.
  assert (E : forall h, h <> [] -> history self = Some h ->
            _build_retrieval_query self question max_messages
            = ("Conversation context:" ++ nl
               ++ Text.join nl (map render_turn
                                  (last_n (Z.to_nat max_messages) h))
               ++ nl ++ nl ++ "Current question:"
               ++ Text.rstrip (nl ++ question))%string).
  { intros h Hne Hh. unfold _build_retrieval_query. rewrite Hh.
    destruct h as [|t h]; [congruence|].
    rewrite (StripFacts.slice_last _ _ Hm).
    apply (StripFacts.strip_query _ (nl ++ question)). }
  split.
  - destruct (history self) as [[|t h]|] eqn:Hh.
    + unfold _build_retrieval_query. now rewrite Hh.
    + apply E; [discriminate | reflexivity].
    + unfold _build_retrieval_query. now rewrite Hh.
  - intros h Hh Hne Hq Hr. rewrite (E h Hne Hh).
    unfold spec_retrieval_query. do 6 f_equal.
    now apply StripFacts.rstrip_fixed.
Qed.

Lemma C9_retrieval_query_is_stripped_witness :
  let question := "which one is cheaper? " in
  (1 <= 4)%Z
  /\ _build_retrieval_query Demo.talking question 4%Z
     = ("Conversation context:" ++ nl
        ++ "user: cheap places in Porto" ++ nl
        ++ "assistant: Two listings match."
        ++ nl ++ nl ++ "Current question:" ++ nl
        ++ "which one is cheaper?")%string.
Proof.
  cbv zeta.
  assert (Hm : (1 <= 4)%Z) by (intros H; discriminate H).
  split; [exact Hm|].
  destruct (C9_retrieval_query_is_stripped Demo.talking
              "which one is cheaper? " 4%Z Hm) as [H _].
  rewrite H. reflexivity.
Defined.

(** C9, as stated, fails: with a history and a question that ends in a
    space, the function returns the stated text without that space. *)
Lemma C9_counterexample :
  let question := "which one is cheaper? " in
  let built := _build_retrieval_query Demo.talking question 4%Z in
  let stated :=
    spec_retrieval_query (list_of (history Demo.talking)) question 4 in
  String.eqb built stated = false
  /\ stated = (built ++ " ")%string.
Proof. cbv zeta. split; reflexivity. Qed.

(** The window is Python's [history[-max_messages:]]: for
    [max_messages = 0] that slice is the whole history, not an empty
    one. *)
Example window_of_zero_is_everything :
  _build_retrieval_query Demo.talking "which one is cheaper?" 0%Z
  = spec_retrieval_query (list_of (history Demo.talking))
                         "which one is cheaper?" 2.
Proof. reflexivity. Qed.

(** C10: a country or market value returned by [extract_filters] is the
    text that follows an occurrence of [country=] / [market=] (in any
    case) up to, and excluding, the first space, double quote or comma
    after it; it is never empty and contains none of these three
    characters, so a value with several words or with a comma is never
    captured whole.  Moreover no string value of any returned filter
    contains a comma. *)
Theorem C10_string_values_stop_early :
  forall (question : string) (fs : list Filter) (direct : bool),
    extract_filters question = Ok (Some (fs, direct)) ->
    (forall field key v,
        In (field, key) [("address.country_code", "country=");
                         ("address.market", "market=")] ->
        In (field, VStr v) fs ->
        exists pre kw post,
          question = (pre ++ kw ++ v ++ post)%string
          /\ Text.lower kw = key
          /\ v <> ""
          /\ all_chars (fun c => negb (is_stop c)) v = true
          /\ ends_or_starts is_stop post)
    /\ (forall field v,
          In (field, VStr v) fs ->
          all_chars (fun c => negb (is_comma c)) v = true).
Proof.
  intros question fs direct H.
  assert (Hsrc : forall field v, In (field, VStr v) fs ->
            (field = "_id"
             /\ truthy_str (_split_filters id_pattern question) = Some v)
            \/ (field = "address.country_code"
                /\ truthy_str (_split_filters country_pattern question)
                   = Some v)
            \/ (field = "address.market"
                /\ truthy_str (_split_filters market_pattern question)
                   = Some v)).
  { intros field v Hin. unfold extract_filters in H.
    destruct (truthy_str (_split_filters id_pattern question)) as [m|].
    - injection H as <- <-. destruct Hin as [Hin|[]].
      injection Hin as <- <-. now left.
    - destruct (append_int _ "beds" _) as [f1|] eqn:E1; [|discriminate].
      destruct (append_int f1 "bedrooms" _) as [f2|] eqn:E2; [|discriminate].
      destruct f2 as [|x f2]; [discriminate|]. injection H as <- <-.
      apply (ExtractFacts.append_int_in _ _ _ _ _ _ E2) in Hin.
      apply (ExtractFacts.append_int_in _ _ _ _ _ _ E1) in Hin.
      apply ExtractFacts.append_str_in in Hin as [Hin|(-> & v' & [= <-] & Hv)].
      + apply ExtractFacts.append_str_in in Hin
          as [[]|(-> & v' & [= <-] & Hv)].
        right. now left.
      + right. now right. }
  assert (Hval : forall p v,
            Re.quant p = Re.OneOrMore -> Re.cls p = Re.not_quote_space ->
            truthy_str (_split_filters p question) = Some v ->
            exists pre kw post,
              question = (pre ++ kw ++ v ++ post)%string
              /\ Text.lower kw = Text.lower (Re.lit p)
              /\ v <> ""
              /\ all_chars (fun c => negb (is_stop c)) v = true
              /\ ends_or_starts is_stop post).
  { intros p v Hq Hc Hv.
    destruct (ExtractFacts.split_filters_value p question v Hq Hv)
      as (pre & kw & post & Heq & Hkw & Hne & Ha & He).
    exists pre, kw, post. repeat (split; [assumption|]). rewrite Hc in *.
    split.
    - revert Ha. apply TextFacts.all_chars_impl. intros c Hx.
      apply andb_true_iff in Hx as [H1 H2].
      unfold Re.not_quote_space, is_comma, is_stop in *.
      destruct (Ascii.eqb c " "), (Ascii.eqb c "034"), (Ascii.eqb c ",");
        simpl in *; congruence.
    - destruct post as [|c post]; [exact I|]. simpl in *.
      unfold Re.not_quote_space, is_comma, is_stop in *.
      destruct (Ascii.eqb c " "), (Ascii.eqb c "034"), (Ascii.eqb c ",");
        simpl in *; congruence. }
  split.
  - intros field key v Hk Hin.
    destruct (Hsrc _ _ Hin) as [[-> _]|[[-> Hv]|[-> Hv]]].
    + destruct Hk as [Hk|[Hk|[]]]; discriminate.
    + destruct Hk as [Hk|[Hk|[]]]; [|discriminate]. injection Hk as <-.
      exact (Hval country_pattern v eq_refl eq_refl Hv).
    + destruct Hk as [Hk|[Hk|[]]]; [discriminate|]. injection Hk as <-.
      exact (Hval market_pattern v eq_refl eq_refl Hv).
  - intros field v Hin.
    destruct (Hsrc _ _ Hin) as [[_ Hv]|[[_ Hv]|[_ Hv]]].
    + destruct (ExtractFacts.id_match_value _ _ Hv) as (_ & Hd & _).
      revert Hd. apply TextFacts.all_chars_impl, TextFacts.digit_not_comma.
    + destruct (Hval country_pattern v eq_refl eq_refl Hv)
        as (_ & _ & _ & _ & _ & _ & Ha & _).
      revert Ha. apply TextFacts.all_chars_impl. intros c. unfold is_stop, is_comma.
      destruct (Ascii.eqb c ","); [now rewrite !orb_true_r | reflexivity].
    + destruct (Hval market_pattern v eq_refl eq_refl Hv)
        as (_ & _ & _ & _ & _ & _ & Ha & _).
      revert Ha. apply TextFacts.all_chars_impl. intros c. unfold is_stop, is_comma.
      destruct (Ascii.eqb c ","); [now rewrite !orb_true_r | reflexivity].
Qed.

Lemma C10_string_values_stop_early_witness :
  let question := "market=New York, country=US,CA" in
  let fs := [("address.country_code", VStr "US");
             ("address.market", VStr "New")] in
  extract_filters question = Ok (Some (fs, false))
  /\ (forall field key v,
         In (field, key) [("address.country_code", "country=");
                          ("address.market", "market=")] ->
         In (field, VStr v) fs ->
         exists pre kw post,
           question = (pre ++ kw ++ v ++ post)%string
           /\ Text.lower kw = key
           /\ v <> ""
           /\ all_chars (fun c => negb (is_stop c)) v = true
           /\ ends_or_starts is_stop post)
  /\ (forall field v,
         In (field, VStr v) fs ->
         all_chars (fun c => negb (is_comma c)) v = true).
Proof.
  cbv zeta. split; [reflexivity|].
  apply (C10_string_values_stop_early "market=New York, country=US,CA"
           [("address.country_code", VStr "US");
            ("address.market", VStr "New")] false).
  reflexivity.
Defined.

Import Vocab2.


(** * Further properties of the code *)

(** ** Turns *)

Lemma finish_state (s : QueryProcessor) (prompt : string)
  (reply : option (option string)) :
  exists a h,
    finish s prompt reply = Normal (a, h) (set_history h s).
Proof. destruct reply; cbn; eauto. Qed.

(** X1: passing an empty list as [history] starts the turn from an empty
    conversation: whatever the instance remembered, a chat exchange of
    that turn carries a single user message. *)
Theorem empty_history_argument_resets :
  forall (dumps : doc -> string) (W : Type) (world : World W) (w : W)
         (self : QueryProcessor) (question : string)
         (model : string) (messages : list Turn) (temperature : Q)
         (max_tokens : Z) (reply : option (option string)),
    let r := run world
                 (retrieve_aggregate_facts dumps question (Some []) self) w in
    In (EvChat model messages temperature max_tokens reply) (trace_of r) ->
    exists prompt, messages = [mkTurn "user" prompt].
Proof.
  intros dumps W world w self question model messages temperature max_tokens
         reply r Hin. subst r.
  turn_cases dumps world w self question (Some (@nil Turn));
    pick_event Hin; injection Hin as ? ? ? ? ?; subst; cbn; eauto.
Qed.

Lemma empty_history_argument_resets_witness :
  let world := Demo.world (Some (Some "About 80 euros a night.")) None [] in
  let question := "what about pricing?" in
  let messages :=
    [mkTurn "user" (grounding_prompt (Text.join nl ["Horto flat"])
                                     question)] in
  let r := run world
               (retrieve_aggregate_facts Demo.dumps question (Some [])
                                         Demo.talking) 0 in
  In (EvChat "gpt-4o-mini" messages (3 # 10)%Q 800%Z
             (Some (Some "About 80 euros a night.")))
     (trace_of r)
  /\ exists prompt, messages = [mkTurn "user" prompt].
Proof.
  cbv zeta.
  assert (Hin : In (EvChat "gpt-4o-mini"
                      [mkTurn "user"
                         (grounding_prompt (Text.join nl ["Horto flat"])
                                           "what about pricing?")]
                      (3 # 10)%Q 800%Z
                      (Some (Some "About 80 euros a night.")))
                   (trace_of
                      (run (Demo.world (Some (Some "About 80 euros a night."))
                                       None [])
                           (retrieve_aggregate_facts Demo.dumps
                              "what about pricing?" (Some []) Demo.talking)
                           0)))
    by (left; reflexivity).
  split; [exact Hin|].
  exact (empty_history_argument_resets Demo.dumps nat _ 0 Demo.talking
           "what about pricing?" _ _ _ _ _ Hin).
Defined.

(** X2: a question in which [extract_filters] recognises a filter never
    takes the reuse path: the first exchange of its turn is the lookup or
    the embedding of a fresh retrieval, also when the question is a
    follow-up and results are cached. *)
Theorem explicit_filter_forces_fresh_retrieval :
  forall (dumps : doc -> string) (W : Type) (world : World W) (w : W)
         (self : QueryProcessor) (question : string)
         (hist : option (list Turn)) (x : Extraction),
    extract_filters question = Ok (Some x) ->
    let r := run world (retrieve_aggregate_facts dumps question hist self) w in
    exists e rest,
      trace_of r = e :: rest
      /\ (service_of e = OfLookup \/ service_of e = OfEmbedding).
Proof.
  intros dumps W world w self question hist x Hx r. subst r.
  assert (Hshape : has_explicit_filter (Some x) = true).
  { unfold extract_filters in Hx.
    destruct (truthy_str (_split_filters id_pattern question)).
    - injection Hx as <-. reflexivity.
    - destruct (append_int _ "beds" _); [|discriminate].
      destruct (append_int _ "bedrooms" _) as [[|y l]|]; try discriminate.
      injection Hx as <-. reflexivity. }
  turn_cases dumps world w self question hist; same_extraction Hx;
    try (eexists _, _; split; [reflexivity|]; cbn; auto; fail).
  match goal with
  | H : reuses _ _ _ = true |- _ =>
      unfold reuses in H; rewrite Hshape, andb_false_r in H; discriminate H
  end.
Qed.

Lemma explicit_filter_forces_fresh_retrieval_witness :
  let world := Demo.world (Some (Some "One flat.")) None [Demo.near] in
  let question := "what about pricing for beds=2?" in
  let r := run world
               (retrieve_aggregate_facts Demo.dumps question None
                                         Demo.talking) 0 in
  _is_followup question = true
  /\ extract_filters question = Ok (Some ([("beds", VInt 2)], false))
  /\ exists e rest,
       trace_of r = e :: rest
       /\ (service_of e = OfLookup \/ service_of e = OfEmbedding).
Proof.
  cbv zeta. split; [reflexivity|]. split; [reflexivity|].
  apply (explicit_filter_forces_fresh_retrieval Demo.dumps nat
           (Demo.world (Some (Some "One flat.")) None [Demo.near]) 0
           Demo.talking "what about pricing for beds=2?" None
           ([("beds", VInt 2)], false)).
  reflexivity.
Defined.

(** X3: a failure of the embedding call, of the vector search or of the
    lookup is not absorbed: the turn raises, no chat call is made, and the
    cached retrieval is untouched. *)
Theorem retrieval_failure_propagates :
  forall (dumps : doc -> string) (W : Type) (world : World W) (w : W)
         (self : QueryProcessor) (question : string)
         (hist : option (list Turn)) (e : Event),
    let r := run world (retrieve_aggregate_facts dumps question hist self) w in
    In e (trace_of r) ->
    (match e with
     | EvEmbed _ _ None | EvAggregate _ None | EvFindOne _ None => True
     | _ => False
     end) ->
    outcome_of r = Raised ServiceError (enter hist self)
    /\ calls OfGeneration (trace_of r) = 0
    /\ last_results (enter hist self) = last_results self
    /\ last_question (enter hist self) = last_question self
    /\ last_filters (enter hist self) = last_filters self.
Proof.
  intros dumps W world w self question hist e r Hin He. subst r.
  destruct (enter_fields hist self) as (E1 & E2 & E3 & _).
  turn_cases dumps world w self question hist;
    pick_event Hin; subst e; try contradiction;
    conjs; (reflexivity || assumption).
Qed.

Lemma retrieval_failure_propagates_witness :
  let question := "a place in Brooklyn" in
  let e := EvEmbed "voyage-2"
                   (_build_retrieval_query Demo.talking question 4%Z) None in
  let r := run Demo2.embed_down
               (retrieve_aggregate_facts Demo.dumps question None
                                         Demo.talking) 0 in
  In e (trace_of r)
  /\ outcome_of r = Raised ServiceError Demo.talking
  /\ calls OfGeneration (trace_of r) = 0.
Proof.
  cbv zeta.
  assert (Hin : In (EvEmbed "voyage-2"
                      (_build_retrieval_query Demo.talking
                                              "a place in Brooklyn" 4%Z)
                      None)
                   (trace_of
                      (run Demo2.embed_down
                           (retrieve_aggregate_facts Demo.dumps
                              "a place in Brooklyn" None Demo.talking) 0)))
    by (left; reflexivity).
  split; [exact Hin|].
  destruct (retrieval_failure_propagates Demo.dumps nat Demo2.embed_down 0
              Demo.talking "a place in Brooklyn" None _ Hin I)
    as (H1 & H2 & _).
  split; [exact H1 | exact H2].
Defined.

(** X4: the cache is written before the synthesis is attempted: in every
    turn that retrieved afresh and went on to call the chat model, the
    instance ends with the question as [last_question], the extraction
    result as [last_filters] and a non-empty [last_results], whether or
    not the chat call succeeded. *)
Theorem cache_written_before_synthesis :
  forall (dumps : doc -> string) (W : Type) (world : World W) (w : W)
         (self : QueryProcessor) (question : string)
         (hist : option (list Turn)),
    let r := run world (retrieve_aggregate_facts dumps question hist self) w in
    calls OfGeneration (trace_of r) = 1 ->
    calls OfLookup (trace_of r) + calls OfVectorSearch (trace_of r) = 1 ->
    exists filters,
      extract_filters question = Ok filters
      /\ last_question (state_after (outcome_of r)) = Some question
      /\ last_filters (state_after (outcome_of r)) = filters
      /\ truthy_list (last_results (state_after (outcome_of r))) = true.
Proof.
  intros dumps W world w self question hist r Hg Hl. subst r.
  turn_cases dumps world w self question hist;
    try discriminate Hg; try discriminate Hl;
    match goal with
    | |- context [finish ?s ?p ?reply] =>
        destruct (finish_state s p reply) as (a & h & ->)
    end;
    eexists; (split; [eassumption|]); cbn; auto.
Qed.

Lemma cache_written_before_synthesis_witness :
  let world := Demo.world None None [Demo.near] in
  let question := "a flat near the river" in
  let r := run world
               (retrieve_aggregate_facts Demo.dumps question None
                                         Demo.started) 0 in
  calls OfGeneration (trace_of r) = 1
  /\ calls OfLookup (trace_of r) + calls OfVectorSearch (trace_of r) = 1
  /\ (exists s, outcome_of r = Normal (no_context, None) s)
  /\ exists filters,
       extract_filters question = Ok filters
       /\ last_question (state_after (outcome_of r)) = Some question
       /\ last_filters (state_after (outcome_of r)) = filters
       /\ truthy_list (last_results (state_after (outcome_of r))) = true.
Proof.
  cbv zeta. split; [reflexivity|]. split; [reflexivity|].
  split; [eexists; reflexivity|].
  apply (cache_written_before_synthesis Demo.dumps nat
           (Demo.world None None [Demo.near]) 0 Demo.started
           "a flat near the river" None); reflexivity.
Defined.

(** X5: one turn sends at most three requests: at most one to each
    service, never both a lookup and a vector search, and a vector search
    only after an embedding.  It sends none exactly when [extract_filters]
    raises, which is the [ValueError] of [int] on an over-long number. *)
Theorem one_call_per_service :
  forall (dumps : doc -> string) (W : Type) (world : World W) (w : W)
         (self : QueryProcessor) (question : string)
         (hist : option (list Turn)),
    let r := run world (retrieve_aggregate_facts dumps question hist self) w in
    calls OfGeneration (trace_of r) <= 1
    /\ calls OfEmbedding (trace_of r) <= 1
    /\ calls OfLookup (trace_of r) + calls OfVectorSearch (trace_of r) <= 1
    /\ calls OfVectorSearch (trace_of r) <= calls OfEmbedding (trace_of r)
    /\ calls OfLookup (trace_of r) + calls OfEmbedding (trace_of r) <= 1
    /\ length (trace_of r) <= 3
    /\ (trace_of r = [] <-> extract_filters question = Throw ValueError)
    /\ (trace_of r = [] ->
        outcome_of r = Raised ValueError (enter hist self)).
Proof.
  intros dumps W world w self question hist r. subst r.
  turn_cases dumps world w self question hist;
    (conjs; [cbn; lia | cbn; lia | cbn; lia | cbn; lia | cbn; lia
            | cbn; lia | | ]);
    try (split; intros K; [discriminate K | congruence]);
    try (intros K; discriminate K).
  - destruct (ExtractFacts.extract_filters_throw _ _ H) as [-> _].
    split; auto.
  - destruct (ExtractFacts.extract_filters_throw _ _ H) as [-> _].
    reflexivity.
Qed.

Lemma last_n_keeps_tail {A : Type} (n : nat) (front tail : list A) :
  length tail <= n ->
  exists front', last_n n (front ++ tail) = front' ++ tail.
Proof.
  intros H. unfold last_n. rewrite length_app.
  exists (skipn (length front + length tail - n) front).
  rewrite skipn_app.
  replace (length front + length tail - n - length front) with 0 by lia.
  reflexivity.
Qed.

(** X6: when the chat call of a turn succeeds, the answer of the turn is
    the model's text (the empty string when the model returned no
    content), and the returned history, cut or not, ends with the user
    message that was sent last followed by that answer. *)
Theorem answered_turn_ends_history :
  forall (dumps : doc -> string) (W : Type) (world : World W) (w : W)
         (self : QueryProcessor) (question : string)
         (hist : option (list Turn))
         (model : string) (sent : list Turn) (prompt : Turn)
         (temperature : Q) (max_tokens : Z) (c : option string),
    let r := run world (retrieve_aggregate_facts dumps question hist self) w in
    In (EvChat model (sent ++ [prompt]) temperature max_tokens (Some c))
       (trace_of r) ->
    exists front self',
      outcome_of r
      = Normal (content_or_empty c,
                Some (front ++ [prompt;
                                mkTurn "assistant" (content_or_empty c)]))
               self'
      /\ history self'
         = Some (front ++ [prompt; mkTurn "assistant" (content_or_empty c)])
      /\ role prompt = "user".
Proof.
  intros dumps W world w self question hist model sent prompt temperature
         max_tokens c r Hin. subst r.
  assert (K : forall (h0 : list Turn) (p : string),
             h0 ++ [mkTurn "user" p] = sent ++ [prompt] ->
             exists front,
               truncate_history
                 (Some ((h0 ++ [mkTurn "user" p])
                        ++ [mkTurn "assistant" (content_or_empty c)]))
               = Some (front ++ [prompt;
                                 mkTurn "assistant" (content_or_empty c)])
               /\ role prompt = "user").
  { intros h0 p E. apply app_inj_tail in E as [-> <-].
    rewrite truncate_history_spec, <- app_assoc. cbn [app].
    destruct (8 <? _).
    - destruct (last_n_keeps_tail 6 sent
                  [mkTurn "user" p; mkTurn "assistant" (content_or_empty c)])
        as [front ->]; [cbn; lia|]. eauto.
    - eauto. }
  turn_cases dumps world w self question hist;
    pick_event Hin; injection Hin as ? E ? ? ?; subst;
    destruct (K _ _ E) as (front & Hh & Hr);
    exists front; eexists (set_history _ _); cbn; rewrite Hh; auto.
Qed.

Lemma answered_turn_ends_history_witness :
  let world := Demo.world (Some (Some "About 80 euros a night.")) None [] in
  let question := "what about pricing?" in
  let prompt :=
    mkTurn "user" (grounding_prompt (Text.join nl ["Horto flat"]) question) in
  let r := run world
               (retrieve_aggregate_facts Demo.dumps question None
                                         Demo.long_talk) 0 in
  In (EvChat "gpt-4o-mini" (list_of (history Demo.long_talk) ++ [prompt])
             (3 # 10)%Q 800%Z (Some (Some "About 80 euros a night.")))
     (trace_of r)
  /\ exists front self',
       outcome_of r
       = Normal ("About 80 euros a night.",
                 Some (front ++ [prompt;
                                 mkTurn "assistant"
                                        "About 80 euros a night."]))
                self'
       /\ history self'
          = Some (front ++ [prompt;
                            mkTurn "assistant" "About 80 euros a night."])
       /\ role prompt = "user".
Proof.
  cbv zeta.
  assert (Hin : In (EvChat "gpt-4o-mini"
                      (list_of (history Demo.long_talk)
                       ++ [mkTurn "user"
                             (grounding_prompt (Text.join nl ["Horto flat"])
                                               "what about pricing?")])
                      (3 # 10)%Q 800%Z
                      (Some (Some "About 80 euros a night.")))
                   (trace_of
                      (run (Demo.world (Some (Some "About 80 euros a night."))
                                       None [])
                           (retrieve_aggregate_facts Demo.dumps
                              "what about pricing?" None Demo.long_talk)
                           0)))
    by (left; reflexivity).
  split; [exact Hin|].
  exact (answered_turn_ends_history Demo.dumps nat _ 0 Demo.long_talk
           "what about pricing?" None _ _ _ _ _ _ Hin).
Defined.

(** X7: the reuse path is taken only under its three conditions: a turn
    that talks to the chat model without any retrieval had a non-empty
    [last_results], a follow-up question and no extracted filter. *)
Theorem reuse_only_for_plain_followups :
  forall (dumps : doc -> string) (W : Type) (world : World W) (w : W)
         (self : QueryProcessor) (question : string)
         (hist : option (list Turn)),
    let r := run world (retrieve_aggregate_facts dumps question hist self) w in
    calls OfGeneration (trace_of r) = 1 ->
    calls OfLookup (trace_of r) + calls OfEmbedding (trace_of r) = 0 ->
    truthy_list (last_results self) = true
    /\ _is_followup question = true
    /\ extract_filters question = Ok None.
Proof.
  intros dumps W world w self question hist r Hg Hl. subst r.
  turn_cases dumps world w self question hist;
    try discriminate Hg; try discriminate Hl.
  match goal with
  | H : reuses _ _ _ = true |- _ =>
      unfold reuses in H; apply andb_true_iff in H as [H Hn];
      apply andb_true_iff in H as [H1 H2]
  end.
  conjs; try assumption.
  destruct filters as [x|]; [|assumption].
  match goal with
  | H : extract_filters _ = Ok (Some _) |- _ => rename H into Hx
  end.
  exfalso. unfold extract_filters in Hx.
  destruct (truthy_str (_split_filters id_pattern question)).
  - injection Hx as <-. discriminate Hn.
  - destruct (append_int _ "beds" _); [|discriminate].
    destruct (append_int _ "bedrooms" _) as [[|y l]|]; try discriminate.
    injection Hx as <-. discriminate Hn.
Qed.

Lemma reuse_only_for_plain_followups_witness :
  let world := Demo.world (Some (Some "About 80 euros a night.")) None [] in
  let question := "what about pricing?" in
  let r := run world
               (retrieve_aggregate_facts Demo.dumps question None
                                         Demo.talking) 0 in
  calls OfGeneration (trace_of r) = 1
  /\ calls OfLookup (trace_of r) + calls OfEmbedding (trace_of r) = 0
  /\ truthy_list (last_results Demo.talking) = true
  /\ _is_followup question = true
  /\ extract_filters question = Ok None.
Proof.
  cbv zeta. split; [reflexivity|]. split; [reflexivity|].
  apply (reuse_only_for_plain_followups Demo.dumps nat
           (Demo.world (Some (Some "About 80 euros a night.")) None []) 0
           Demo.talking "what about pricing?" None); reflexivity.
Defined.

(** X8: the text a turn sends to the embedding service is the retrieval
    query built from the question and the history the turn started with,
    with a window of 4 messages, under the instance's embedding model. *)
Theorem embedded_text_is_retrieval_query :
  forall (dumps : doc -> string) (W : Type) (world : World W) (w : W)
         (self : QueryProcessor) (question : string)
         (hist : option (list Turn))
         (model text : string) (reply : option vector),
    let r := run world (retrieve_aggregate_facts dumps question hist self) w in
    In (EvEmbed model text reply) (trace_of r) ->
    model = voyage_model self
    /\ text = _build_retrieval_query (enter hist self) question 4%Z
    /\ (truthy_list (history (enter hist self)) = false ->
        text = question).
Proof.
  intros dumps W world w self question hist model text reply r Hin. subst r.
  assert (Hv : voyage_model (enter hist self) = voyage_model self)
    by (destruct hist; reflexivity).
  assert (Hq : truthy_list (history (enter hist self)) = false ->
               _build_retrieval_query (enter hist self) question 4%Z
               = question).
  { unfold _build_retrieval_query.
    destruct (history (enter hist self)) as [[|t h]|];
      [reflexivity | discriminate | reflexivity]. }
  turn_cases dumps world w self question hist;
    pick_event Hin; injection Hin as ? ? ?; subst; auto.
Qed.

Lemma embedded_text_is_retrieval_query_witness :
  let world := Demo.world (Some (Some "One flat.")) None [Demo.near] in
  let question := "a flat near the river " in
  let r := run world
               (retrieve_aggregate_facts Demo.dumps question None
                                         Demo.started) 0 in
  In (EvEmbed "voyage-2" question (Some [(1 # 2)%Q; (1 # 3)%Q]))
     (trace_of r)
  /\ "voyage-2" = voyage_model Demo.started
  /\ question = _build_retrieval_query (enter None Demo.started) question 4%Z
  /\ (truthy_list (history (enter None Demo.started)) = false ->
      question = question).
Proof.
  cbv zeta.
  assert (Hin : In (EvEmbed "voyage-2" "a flat near the river "
                            (Some [(1 # 2)%Q; (1 # 3)%Q]))
                   (trace_of
                      (run (Demo.world (Some (Some "One flat.")) None
                                       [Demo.near])
                           (retrieve_aggregate_facts Demo.dumps
                              "a flat near the river " None Demo.started)
                           0)))
    by (left; reflexivity).
  split; [exact Hin|].
  exact (embedded_text_is_retrieval_query Demo.dumps nat _ 0 Demo.started
           "a flat near the river " None _ _ _ Hin).
Defined.

(** ** The chat call *)

(** [query_llm] without a [history] argument, as the loop calls it. *)
Lemma run_query_llm_plain (W : Type) (world : World W) (w : W)
  (self : QueryProcessor) (question : string) :
  let sent := list_of (history self) ++ [mkTurn "user" question] in
  let r := run world (query_llm question None self) w in
  exists reply,
    trace_of r = [EvChat (openai_model self) sent (3 # 10)%Q 800%Z reply]
    /\ outcome_of r
       = match reply with
         | Some c =>
             let h := sent ++ [mkTurn "assistant" (content_or_empty c)] in
             Normal (content_or_empty c, Some h) (set_history (Some h) self)
         | None => Raised ServiceError (set_history (Some sent) self)
         end.
Proof.
  intros sent r. subst sent r.
  destruct self as [h lr lq lf om vm vi].
  destruct h as [[|t h]|]; cbn;
    match goal with
    | |- context [on_chat world w ?a ?b ?c ?d] =>
        destruct (on_chat world w a b c d) as [[rp|] w']
    end; cbn; eexists; split; reflexivity.
Qed.

(** X9: [query_llm] makes exactly one chat call.  The conversation it
    sends is the [history] argument when that is a non-empty list and the
    instance's own history otherwise (an empty list does not replace it),
    followed by the question as a user message.  On success both that
    message and the reply are appended and returned; when the call raises,
    the exception leaves [query_llm] and the unanswered user message stays
    in the history. *)
Theorem query_llm_exchange :
  forall (W : Type) (world : World W) (w : W) (self : QueryProcessor)
         (question : string) (hist : option (list Turn)),
    let before := if truthy_list hist then list_of hist
                  else list_of (history self) in
    let sent := before ++ [mkTurn "user" question] in
    let r := run world (query_llm question hist self) w in
    exists reply,
      trace_of r = [EvChat (openai_model self) sent (3 # 10)%Q 800%Z reply]
      /\ outcome_of r
         = match reply with
           | Some c =>
               let h := sent ++ [mkTurn "assistant" (content_or_empty c)] in
               Normal (content_or_empty c, Some h) (set_history (Some h) self)
           | None => Raised ServiceError (set_history (Some sent) self)
           end.
Proof.
  intros W world w self question hist before sent r. subst before sent r.
  destruct self as [h lr lq lf om vm vi].
  destruct hist as [[|t0 h0]|]; destruct h as [[|t h]|]; cbn;
    match goal with
    | |- context [on_chat world w ?a ?b ?c ?d] =>
        destruct (on_chat world w a b c d) as [[rp|] w']
    end; cbn; eexists; split; reflexivity.
Qed.


(** ** The vector search *)

Lemma collect_outcome (dumps : doc -> string) (min_score : Q)
  (candidates : list doc) (output : list string) :
  collect dumps min_score candidates output
  = if existsb bad_score candidates then Throw TypeError
    else Ok (output ++ map dumps (filter (above min_score) candidates)).
Proof.
  revert output. induction candidates as [|d l IH]; intros output; cbn.
  - now rewrite app_nil_r.
  - unfold bad_score at 1, above at 1, score_value, score_ge.
    destruct (score_of d); cbn; try reflexivity.
    + destruct (Qle_bool min_score (inject_Z n)); rewrite IH;
        destruct (existsb bad_score l); try reflexivity.
      now rewrite <- app_assoc.
    + destruct (Qle_bool min_score q); rewrite IH;
        destruct (existsb bad_score l); try reflexivity.
      now rewrite <- app_assoc.
Qed.

(** X10: [search_similar_documents], for any arguments, sends one
    aggregation.  If the call raises, so does the search; if some
    candidate's score is not a number the search raises [TypeError];
    otherwise it returns the serializations of the candidates whose score
    reaches [min_score], in the order the store returned them.  The
    instance is not modified. *)
Theorem search_similar_documents_result :
  forall (dumps : doc -> string) (W : Type) (world : World W) (w : W)
         (self : QueryProcessor) (query_vector : vector)
         (filters : option (list Filter)) (limit candidates : Z)
         (min_score : Q),
    let r := run world
                 (search_similar_documents dumps query_vector filters limit
                                           candidates min_score self) w in
    exists pipeline reply,
      build_pipeline self query_vector filters limit candidates = Ok pipeline
      /\ trace_of r = [EvAggregate pipeline reply]
      /\ outcome_of r
         = match reply with
           | None => Raised ServiceError self
           | Some found =>
               if existsb bad_score found then Raised TypeError self
               else Normal (map dumps (filter (above min_score) found)) self
           end.
Proof.
  intros dumps W world w self query_vector filters limit candidates min_score
         r. subst r.
  destruct (TurnFacts.build_pipeline_ok self query_vector filters limit
              candidates) as [pl Hp].
  exists pl. unfold search_similar_documents. cbn. rewrite Hp. cbn.
  destruct (on_aggregate world w pl) as [[found|] w']; cbn.
  - exists (Some found). rewrite collect_outcome.
    destruct (existsb bad_score found); cbn; auto.
  - exists None. auto.
Qed.

(** X11: raising the threshold can only remove snippets: what a search
    returns at a higher [min_score] is what it returns at a lower one with
    the candidates below the higher threshold taken out. *)
Theorem higher_threshold_returns_less :
  forall (dumps : doc -> string) (low high : Q) (found : list doc)
         (at_low at_high : list string),
    (low <= high)%Q ->
    collect dumps low found [] = Ok at_low ->
    collect dumps high found [] = Ok at_high ->
    exists kept,
      at_low = map dumps kept
      /\ at_high = map dumps (filter (above high) kept)
      /\ length at_high <= length at_low <= length found.
Proof.
  intros dumps low high found at_low at_high Hle Hl Hh.
  apply collect_ok in Hl, Hh. cbn in Hl, Hh. subst.
  assert (Himp : forall d, above high d = true -> above low d = true).
  { intros d Hd. apply above_score in Hd as (q & Hq & Hge).
    unfold above, score_ge. unfold score_value in Hq.
    destruct (score_of d); try discriminate; injection Hq as <-;
      replace (Qle_bool low _) with true; try reflexivity;
      symmetry; apply Qle_bool_iff; eapply Qle_trans; eassumption. }
  exists (filter (above low) found).
  assert (E : filter (above high) (filter (above low) found)
              = filter (above high) found).
  { induction found as [|d l IH]; [reflexivity|]. cbn.
    destruct (above low d) eqn:El; cbn.
    - now rewrite IH.
    - destruct (above high d) eqn:Eh; [|exact IH].
      rewrite (Himp d Eh) in El. discriminate. }
  rewrite E. split; [reflexivity|]. split; [reflexivity|].
  rewrite !length_map, <- E. split; apply filter_length_le.
Qed.

Lemma higher_threshold_returns_less_witness :
  let found := [Demo.near; Demo.far] in
  (2 # 5 <= 1 # 2)%Q
  /\ collect Demo.dumps (2 # 5) found []
     = Ok ["Horto flat"; "Private Room in Bushwick"]
  /\ collect Demo.dumps (1 # 2) found [] = Ok ["Horto flat"]
  /\ exists kept,
       ["Horto flat"; "Private Room in Bushwick"] = map Demo.dumps kept
       /\ ["Horto flat"] = map Demo.dumps (filter (above (1 # 2)) kept)
       /\ length ["Horto flat"]
          <= length ["Horto flat"; "Private Room in Bushwick"]
          <= length found.
Proof.
  cbv zeta.
  assert (Hle : (2 # 5 <= 1 # 2)%Q) by (unfold Qle; cbn; lia).
  split; [exact Hle|]. split; [reflexivity|]. split; [reflexivity|].
  exact (higher_threshold_returns_less Demo.dumps (2 # 5) (1 # 2)
           [Demo.near; Demo.far] _ _ Hle eq_refl eq_refl).
Defined.

(** ** The interactive loop *)

Lemma prefix_append (p s : string) : prefix p (p ++ s) = true.
Proof.
  induction p as [|c p IH]; cbn; [now destruct s|].
  destruct (ascii_dec c c); [exact IH | congruence].
Qed.

Lemma string_drop_append (p s : string) :
  string_drop (String.length p) (p ++ s) = s.
Proof. induction p as [|c p IH]; [reflexivity | exact IH]. Qed.

Lemma removeprefix_append (p s : string) : removeprefix p (p ++ s) = s.
Proof.
  unfold removeprefix. now rewrite prefix_append, string_drop_append.
Qed.

Lemma clear_session_idempotent (self : QueryProcessor) :
  clear_session (clear_session self) = clear_session self.
Proof. reflexivity. Qed.

(** X12: every input line that, once stripped, begins with [clear] is the
    clear command, whatever follows the word: no service is called, the
    history and the cached retrieval become [None], the reply is
    [Answer: history cleared...], and clearing again changes nothing. *)
Theorem clear_command_resets_session :
  forall (dumps : doc -> string) (W : Type) (world : World W) (w : W)
         (self : QueryProcessor) (line rest : string),
    Text.strip line = ("clear" ++ rest)%string ->
    let r := run world (run_step dumps line self) w in
    let s := clear_session self in
    outcome_of r = Normal "Answer: history cleared..." s
    /\ trace_of r = []
    /\ history s = None /\ last_results s = None
    /\ last_question s = None /\ last_filters s = None
    /\ outcome_of (run world (run_step dumps line s) w)
       = Normal "Answer: history cleared..." s.
Proof.
  intros dumps W world w self line rest H r s. subst r s.
  unfold run_step. rewrite H. cbn.
  replace (prefix "" rest) with true by (now destruct rest).
  cbn. repeat split.
Qed.

Lemma clear_command_resets_session_witness :
  let world := Demo.world (Some (Some "unused")) None [] in
  let line := "  clearly the best one?  " in
  let r := run world (run_step Demo.dumps line Demo.talking) 0 in
  Text.strip line = ("clear" ++ "ly the best one?")%string
  /\ outcome_of r
     = Normal "Answer: history cleared..." (clear_session Demo.talking)
  /\ trace_of r = [].
Proof.
  cbv zeta. split; [reflexivity|].
  destruct (clear_command_resets_session Demo.dumps nat
              (Demo.world (Some (Some "unused")) None []) 0 Demo.talking
              "  clearly the best one?  " "ly the best one?" eq_refl)
    as (H1 & H2 & _).
  split; [exact H1 | exact H2].
Defined.

(** X13: an input line that begins with [ask] goes to the chat model
    directly: one chat call on the instance's history plus the rest of the
    line (stripped) as a user message, no retrieval.  On success the two
    messages are appended without any cut and the cached retrieval is
    kept; when the call raises, the exception leaves the loop body. *)
Theorem ask_command_bypasses_retrieval :
  forall (dumps : doc -> string) (W : Type) (world : World W) (w : W)
         (self : QueryProcessor) (line rest : string),
    Text.strip line = ("ask" ++ rest)%string ->
    let sent := list_of (history self)
                ++ [mkTurn "user" (Text.strip rest)] in
    let r := run world (run_step dumps line self) w in
    exists reply,
      trace_of r = [EvChat (openai_model self) sent (3 # 10)%Q 800%Z reply]
      /\ outcome_of r
         = match reply with
           | Some c =>
               Normal ("Answer: " ++ content_or_empty c)%string
                 (set_history
                    (Some (sent ++ [mkTurn "assistant" (content_or_empty c)]))
                    self)
           | None => Raised ServiceError (set_history (Some sent) self)
           end.
Proof.
  intros dumps W world w self line rest H sent r. subst sent r.
  unfold run_step. rewrite H.
  rewrite prefix_append, removeprefix_append. cbn [append].
  destruct (run_query_llm_plain W world w self (Text.strip rest))
    as (reply & Ht & Ho).
  cbn zeta in Ht, Ho.
  exists reply.
  rewrite !TurnFacts.run_bind.
  destruct (run world (query_llm (Text.strip rest) None self) w)
    as [[o tr] w'].
  cbn in Ht, Ho. subst o tr.
  destruct reply as [c|]; cbn; split; reflexivity.
Qed.

Lemma ask_command_bypasses_retrieval_witness :
  let world := Demo.world (Some (Some "It depends.")) None [Demo.near] in
  let line := "asking price of these?" in
  let sent := list_of (history Demo.talking)
              ++ [mkTurn "user" "ing price of these?"] in
  let r := run world (run_step Demo.dumps line Demo.talking) 0 in
  Text.strip line = ("ask" ++ "ing price of these?")%string
  /\ exists reply,
       trace_of r = [EvChat "gpt-4o-mini" sent (3 # 10)%Q 800%Z reply]
       /\ outcome_of r
          = match reply with
            | Some c =>
                Normal ("Answer: " ++ content_or_empty c)%string
                  (set_history
                     (Some (sent
                            ++ [mkTurn "assistant" (content_or_empty c)]))
                     Demo.talking)
            | None => Raised ServiceError
                             (set_history (Some sent) Demo.talking)
            end.
Proof.
  cbv zeta. split; [reflexivity|].
  exact (ask_command_bypasses_retrieval Demo.dumps nat
           (Demo.world (Some (Some "It depends.")) None [Demo.near]) 0
           Demo.talking "asking price of these?" "ing price of these?"
           eq_refl).
Defined.

Lemma finish_bound (s : QueryProcessor) (prompt : string)
  (reply : option (option string)) :
  length (list_of (history (state_after (finish s prompt reply)))) <= 8.
Proof.
  destruct reply as [c|]; cbn; [|lia].
  apply truncate_history_length.
Qed.

Lemma run_step_keeps_bound (dumps : doc -> string) (W : Type)
  (world : World W) (w : W) (self : QueryProcessor) (line : string) :
  prefix "ask" (Text.strip line) = false ->
  length (list_of (history self)) <= 8 ->
  length (list_of (history
     (state_after (outcome_of (run world (run_step dumps line self) w)))))
  <= 8.
Proof.
  intros Hask Hb. unfold run_step.
  destruct (Text.strip line) as [|c s] eqn:E; [exact Hb|].
  rewrite Hask. destruct (prefix "clear" (String c s)); [cbn; lia|].
  rewrite !TurnFacts.run_bind.
  pose proof (TurnFacts.run_turn dumps W world w self (String c s) None) as T.
  cbv zeta in T.
  destruct (run world
              (retrieve_aggregate_facts dumps (String c s) None self) w)
    as [[o tr] w1].
  cbn [trace_of outcome_of fst snd] in T.
  destruct T; repeat match goal with x := _ |- _ => subst x end;
    try (cbn; exact Hb);
    match goal with
    | |- context [finish ?s ?p ?reply] =>
        pose proof (finish_bound s p reply) as Hf;
        destruct (finish s p reply) as [a s'|e s']; cbn in *; exact Hf
    end.
Qed.

(** X14: in a session of the interactive loop that never uses the [ask]
    command, the stored history never grows beyond 8 messages: if it
    holds at most 8 before the first line, it holds at most 8 when the
    loop stops, whatever the services reply and whether the loop stops at
    the end of the input or on an exception. *)
Theorem loop_without_ask_bounds_history :
  forall (dumps : doc -> string) (W : Type) (world : World W)
         (lines : list string) (w : W) (self : QueryProcessor),
    Forall (fun line => prefix "ask" (Text.strip line) = false) lines ->
    length (list_of (history self)) <= 8 ->
    let r := run world (run_loop dumps lines self) w in
    length (list_of (history (state_after (outcome_of r)))) <= 8.
Proof.
  intros dumps W world lines. induction lines as [|line rest IH];
    intros w self Hall Hb r; subst r; [exact Hb|].
  apply Forall_cons_iff in Hall as [Hl Hrest].
  cbn [run_loop]. rewrite TurnFacts.run_bind.
  pose proof (run_step_keeps_bound dumps W world w self line Hl Hb) as Hs.
  destruct (run world (run_step dumps line self) w) as [[[a s|e s] tr] w1];
    cbn in Hs; [|exact Hs].
  rewrite TurnFacts.run_bind.
  specialize (IH w1 s Hrest Hs). cbv zeta in IH.
  destruct (run world (run_loop dumps rest s) w1) as [[[a2 s2|e2 s2] tr2] w2];
    cbn in IH |- *; exact IH.
Qed.

Lemma loop_without_ask_bounds_history_witness :
  let world := Demo.world (Some (Some "Two listings match.")) None
                          [Demo.near] in
  let lines := ["a flat near the river"; "what about pricing?"; "";
                "and what about those?"; "which one is cheapest?";
                "tell me more"; "clear"; "compare them"] in
  let r := run world (run_loop Demo.dumps lines Demo.started) 0 in
  Forall (fun line => prefix "ask" (Text.strip line) = false) lines
  /\ length (list_of (history Demo.started)) <= 8
  /\ length (list_of (history (state_after (outcome_of r)))) <= 8.
Proof.
  cbv zeta.
  assert (Hall : Forall (fun line => prefix "ask" (Text.strip line) = false)
                   ["a flat near the river"; "what about pricing?"; "";
                    "and what about those?"; "which one is cheapest?";
                    "tell me more"; "clear"; "compare them"])
    by (repeat constructor).
  assert (Hb : length (list_of (history Demo.started)) <= 8)
    by (cbn; lia).
  split; [exact Hall|]. split; [exact Hb|].
  exact (loop_without_ask_bounds_history Demo.dumps nat _ _ 0 Demo.started
           Hall Hb).
Defined.

(** ** Filter extraction, continued *)

Module ExtractMore.
Import Text Re TextFacts ExtractFacts.

Lemma int_acc_nonneg (s : string) (acc n : Z) :
  (0 <= acc)%Z -> int_acc acc s = Some n -> (0 <= n)%Z.
Proof.
  revert acc. induction s as [|c s IH]; intros acc Ha; cbn [int_acc].
  - intros [= <-]. exact Ha.
  - destruct (is_digit c); [|discriminate]. apply IH.
    unfold digit_val. lia.
Qed.

Lemma py_int_nonneg (s : string) (n : Z) : py_int s = Some n -> (0 <= n)%Z.
Proof.
  unfold py_int. destruct s; [discriminate|].
  destruct (int_max_str_digits <? _); [discriminate|].
  now apply int_acc_nonneg.
Qed.

(** Where the filters of a result that is not a direct lookup come
    from. *)
Lemma extract_filters_parts (question : string) (fs : list Filter) :
  extract_filters question = Ok (Some (fs, false)) ->
  exists c m b r,
    fs = c ++ m ++ b ++ r
    /\ (c = [] \/ exists s,
          truthy_str (_split_filters country_pattern question) = Some s
          /\ c = [("address.country_code", VStr s)])
    /\ (m = [] \/ exists s,
          truthy_str (_split_filters market_pattern question) = Some s
          /\ m = [("address.market", VStr s)])
    /\ (b = [] \/ exists s n,
          truthy_str (_split_filters beds_pattern question) = Some s
          /\ py_int s = Some n /\ b = [("beds", VInt n)])
    /\ (r = [] \/ exists s n,
          truthy_str (_split_filters bedrooms_pattern question) = Some s
          /\ py_int s = Some n /\ r = [("bedrooms", VInt n)]).
Proof.
  intros Hx. unfold extract_filters, append_int, append_str in Hx.
  set (sc := truthy_str (_split_filters country_pattern question)) in *.
  set (sm := truthy_str (_split_filters market_pattern question)) in *.
  set (sb := truthy_str (_split_filters beds_pattern question)) in *.
  set (sr := truthy_str (_split_filters bedrooms_pattern question)) in *.
  exists (match sc with
          | Some s => [("address.country_code", VStr s)]
          | None => []
          end),
         (match sm with
          | Some s => [("address.market", VStr s)]
          | None => []
          end),
         (match sb with
          | Some s => match py_int s with
                      | Some n => [("beds", VInt n)]
                      | None => []
                      end
          | None => []
          end),
         (match sr with
          | Some s => match py_int s with
                      | Some n => [("bedrooms", VInt n)]
                      | None => []
                      end
          | None => []
          end).
  destruct (truthy_str (_split_filters id_pattern question));
    [discriminate|].
  destruct sc as [c|], sm as [m|], sb as [b|], sr as [r|];
    try destruct (py_int b) as [nb|] eqn:Pb;
    try destruct (py_int r) as [nr|] eqn:Pr;
    cbn in Hx; try discriminate Hx; injection Hx as <-;
    (conjs; [reflexivity | ..]);
    first [left; reflexivity | right; eauto].
Qed.

End ExtractMore.

(** X15: [extract_filters] raises nothing but the [ValueError] of [int],
    and only on a question in which [beds=] or [bedrooms=] is followed by
    more than 4300 digits; in particular never on a question of at most
    4300 characters.  Otherwise its result has one of three shapes:
    nothing; a direct lookup, which is exactly one [_id] filter of eight
    digits; or a non-empty list, not a direct lookup, whose fields are
    some of [address.country_code], [address.market], [beds], [bedrooms],
    each at most once and always in that order, whatever the order of the
    tokens in the question. *)
Theorem extract_filters_shape :
  forall question : string,
    match extract_filters question with
    | Ok None => True
    | Ok (Some (fs, true)) =>
        exists m, fs = [("_id", VStr m)]
                  /\ String.length m = 8
                  /\ all_chars Text.is_digit m = true
    | Ok (Some (fs, false)) =>
        fs <> []
        /\ subsequence String.eqb (map fst fs) filter_fields = true
    | Throw e =>
        e = ValueError
        /\ exists pre kw digits post,
             question = (pre ++ kw ++ digits ++ post)%string
             /\ (Text.lower kw = "beds=" \/ Text.lower kw = "bedrooms=")
             /\ all_chars Text.is_digit digits = true
             /\ Text.int_max_str_digits < String.length digits
    end
    /\ (String.length question <= Text.int_max_str_digits ->
        exists result, extract_filters question = Ok result).
Proof.
  intros question.
  split; [|apply ExtractFacts.extract_filters_short].
  destruct (extract_filters question) as [result|e] eqn:Hx;
    [|exact (ExtractFacts.extract_filters_throw _ _ Hx)].
  destruct result as [[fs [|]]|]; [| |exact I].
  - destruct (ExtractFacts.extract_filters_direct _ _ Hx) as (m & -> & Hm).
    exists m. destruct (ExtractFacts.id_match_value _ _ Hm) as (Hl & Hd & _).
    auto.
  - split.
    + unfold extract_filters in Hx.
      destruct (truthy_str (_split_filters id_pattern question));
        [discriminate|].
      destruct (append_int _ "beds" _); [|discriminate].
      destruct (append_int _ "bedrooms" _) as [[|y l]|]; try discriminate.
      injection Hx as <-. discriminate.
    + destruct (ExtractMore.extract_filters_parts _ _ Hx)
        as (c & m & b & r & -> & Hc & Hm & Hb & Hr).
      destruct Hc as [->|(? & _ & ->)]; destruct Hm as [->|(? & _ & ->)];
        destruct Hb as [->|(? & ? & _ & _ & ->)];
        destruct Hr as [->|(? & ? & _ & _ & ->)]; reflexivity.
Qed.

(** X16: a [beds] or [bedrooms] filter carries the number written by the
    longest run of digits that follows an occurrence of [beds=] /
    [bedrooms=] (in any case) in the question; the number is never
    negative. *)
Theorem numeric_filter_value :
  forall (question : string) (fs : list Filter) (direct : bool)
         (field key : string) (n : Z),
    extract_filters question = Ok (Some (fs, direct)) ->
    In (field, key) [("beds", "beds="); ("bedrooms", "bedrooms=")] ->
    In (field, VInt n) fs ->
    exists pre kw digits post,
      question = (pre ++ kw ++ digits ++ post)%string
      /\ Text.lower kw = key
      /\ digits <> ""
      /\ all_chars Text.is_digit digits = true
      /\ ends_or_starts (fun c => negb (Text.is_digit c)) post
      /\ Text.py_int digits = Some n
      /\ (0 <= n)%Z.
Proof.
  intros question fs direct field key n Hx Hk Hin.
  assert (Hval : forall p s,
            Re.quant p = Re.OneOrMore -> Re.cls p = Text.is_digit ->
            truthy_str (_split_filters p question) = Some s ->
            Text.py_int s = Some n ->
            exists pre kw digits post,
              question = (pre ++ kw ++ digits ++ post)%string
              /\ Text.lower kw = Text.lower (Re.lit p)
              /\ digits <> ""
              /\ all_chars Text.is_digit digits = true
              /\ ends_or_starts (fun c => negb (Text.is_digit c)) post
              /\ Text.py_int digits = Some n
              /\ (0 <= n)%Z).
  { intros p s Hq Hc Hs Hp.
    destruct (ExtractFacts.split_filters_value p question s Hq Hs)
      as (pre & kw & post & Heq & Hkw & Hne & Ha & He).
    exists pre, kw, s, post. rewrite Hc in *.
    conjs; try assumption.
    - revert Ha. apply TextFacts.all_chars_impl. intros c Hc'.
      now apply andb_true_iff in Hc' as [-> _].
    - destruct post as [|c post]; [exact I|]. cbn in *.
      apply orb_true_iff in He as [He|He]; [exact He|].
      unfold is_comma in He. apply Ascii.eqb_eq in He. now subst c.
    - now apply ExtractMore.py_int_nonneg in Hp. }
  destruct direct.
  - destruct (ExtractFacts.extract_filters_direct _ _ Hx) as (m & -> & _).
    destruct Hin as [Hin|[]]. discriminate Hin.
  - destruct (ExtractMore.extract_filters_parts _ _ Hx)
      as (c & m & b & r & -> & Hc & Hm & Hb & Hr).
    repeat (apply in_app_or in Hin as [Hin|Hin]).
    + destruct Hc as [->|(? & _ & ->)]; [destruct Hin|].
      destruct Hin as [Hin|[]]; discriminate Hin.
    + destruct Hm as [->|(? & _ & ->)]; [destruct Hin|].
      destruct Hin as [Hin|[]]; discriminate Hin.
    + destruct Hb as [->|(s & n' & Hs & Hp & ->)]; [destruct Hin|].
      destruct Hin as [Hin|[]]. injection Hin as <- <-.
      destruct Hk as [Hk|[Hk|[]]]; [|discriminate Hk].
      injection Hk as <-.
      exact (Hval beds_pattern s eq_refl eq_refl Hs Hp).
    + destruct Hr as [->|(s & n' & Hs & Hp & ->)]; [destruct Hin|].
      destruct Hin as [Hin|[]]. injection Hin as <- <-.
      destruct Hk as [Hk|[Hk|[]]]; [discriminate Hk|].
      injection Hk as <-.
      exact (Hval bedrooms_pattern s eq_refl eq_refl Hs Hp).
Qed.

Lemma numeric_filter_value_witness :
  let question := "Show listings with beds=25abc bedrooms=1 market=Paris" in
  let fs := [("address.market", VStr "Paris"); ("beds", VInt 25);
             ("bedrooms", VInt 1)] in
  extract_filters question = Ok (Some (fs, false))
  /\ In ("beds", "beds=") [("beds", "beds="); ("bedrooms", "bedrooms=")]
  /\ In ("beds", VInt 25) fs
  /\ exists pre kw digits post,
       question = (pre ++ kw ++ digits ++ post)%string
       /\ Text.lower kw = "beds="
       /\ digits <> ""
       /\ all_chars Text.is_digit digits = true
       /\ ends_or_starts (fun c => negb (Text.is_digit c)) post
       /\ Text.py_int digits = Some 25%Z
       /\ (0 <= 25)%Z.
Proof.
  cbv zeta.
  assert (H1 : In ("beds", "beds=")
                  [("beds", "beds="); ("bedrooms", "bedrooms=")])
    by (left; reflexivity).
  assert (H2 : In ("beds", VInt 25)
                  [("address.market", VStr "Paris"); ("beds", VInt 25);
                   ("bedrooms", VInt 1)])
    by (right; left; reflexivity).
  split; [reflexivity|]. split; [exact H1|]. split; [exact H2|].
  exact (numeric_filter_value
           "Show listings with beds=25abc bedrooms=1 market=Paris"
           _ false "beds" "beds=" 25%Z eq_refl H1 H2).
Defined.

Module CharFacts.
Import Text TextFacts.

Lemma lower_char_equals (c : ascii) :
  not_equals (lower_char c) = not_equals c.
Proof. destruct c as [[] [] [] [] [] [] [] []]; reflexivity. Qed.

Lemma lower_char_space (c : ascii) : is_space (lower_char c) = is_space c.
Proof. destruct c as [[] [] [] [] [] [] [] []]; reflexivity. Qed.

Lemma all_chars_app (f : ascii -> bool) (a b : string) :
  all_chars f (a ++ b) = all_chars f a && all_chars f b.
Proof.
  induction a as [|c a IH]; [reflexivity|]. cbn.
  now rewrite IH, andb_assoc.
Qed.

Lemma all_chars_lower (s : string) :
  all_chars not_equals (lower s) = all_chars not_equals s.
Proof.
  induction s as [|c s IH]; [reflexivity|]. cbn.
  now rewrite IH, lower_char_equals.
Qed.

Lemma lower_app (a b : string) :
  lower (a ++ b) = (lower a ++ lower b)%string.
Proof. induction a as [|c a IH]; [reflexivity|]. cbn. now rewrite IH. Qed.

Lemma lower_app_inv (s a b : string) :
  lower s = (a ++ b)%string ->
  exists a' b', s = (a' ++ b')%string /\ lower a' = a /\ lower b' = b.
Proof.
  revert s. induction a as [|c a IH]; intros s H.
  - now exists "", s.
  - destruct s as [|d s]; [discriminate|]. cbn in H.
    injection H as Hc Hs. destruct (IH _ Hs) as (a' & b' & -> & <- & <-).
    exists (String d a'), b'. cbn. now rewrite Hc.
Qed.

End CharFacts.

(** X17: a question without the character [=] yields no filter at all:
    [extract_filters] returns [None], so such a question can only be
    answered by reuse or by an unfiltered vector search. *)
Theorem no_equals_sign_no_filter :
  forall question : string,
    all_chars not_equals question = true ->
    extract_filters question = Ok None.
Proof.
  intros question Hq.
  assert (Hs : forall p,
            all_chars not_equals (Re.lit p) = false ->
            _split_filters p question = None).
  { intros p Hp. unfold _split_filters.
    destruct (Re.search p question) as [g|] eqn:E; [exfalso|reflexivity].
    destruct (TextFacts.search_sound _ _ _ E) as (pre & rest & -> & Hm).
    unfold Re.match_at in Hm.
    destruct (Re.match_lit (Re.lit p) rest) as [rest'|] eqn:El;
      [|discriminate].
    destruct (TextFacts.match_lit_sound _ _ _ El) as (kw & -> & Hkw).
    rewrite !CharFacts.all_chars_app in Hq.
    apply andb_true_iff in Hq as [_ Hq].
    apply andb_true_iff in Hq as [Hq _].
    rewrite <- CharFacts.all_chars_lower, Hkw, CharFacts.all_chars_lower
      in Hq. congruence. }
  unfold extract_filters.
  rewrite (Hs id_pattern eq_refl), (Hs country_pattern eq_refl),
    (Hs market_pattern eq_refl), (Hs beds_pattern eq_refl),
    (Hs bedrooms_pattern eq_refl).
  reflexivity.
Qed.

Lemma no_equals_sign_no_filter_witness :
  all_chars not_equals "country Portugal, 2 beds, id 10006546" = true
  /\ extract_filters "country Portugal, 2 beds, id 10006546" = Ok None.
Proof.
  split; [reflexivity|].
  apply (no_equals_sign_no_filter "country Portugal, 2 beds, id 10006546").
  reflexivity.
Defined.

(** ** The follow-up heuristic *)

Module FollowupFacts.
Import Text TextFacts CharFacts.

Lemma prefix_split (p s : string) :
  prefix p s = true <-> exists b, s = (p ++ b)%string.
Proof.
  split.
  - revert s. induction p as [|c p IH]; intros s H; [now exists s|].
    destruct s as [|d s]; [discriminate|]. cbn in H.
    destruct (ascii_dec c d) as [->|]; [|discriminate].
    destruct (IH _ H) as [b ->]. now exists b.
  - intros [b ->]. apply prefix_append.
Qed.

Lemma contains_split (p s : string) :
  contains p s = true <-> exists a b, s = (a ++ p ++ b)%string.
Proof.
  split.
  - induction s as [|c s IH]; cbn [contains].
    + destruct (prefix p "") eqn:E; intros H; [|discriminate H].
      apply prefix_split in E as [b E]. now exists "", b.
    + destruct (prefix p (String c s)) eqn:E.
      * intros _. apply prefix_split in E as [b E]. now exists "", b.
      * intros H. destruct (IH H) as (a & b & ->).
        now exists (String c a), b.
  - intros (a & b & ->). induction a as [|c a IH].
    + cbn [append]. destruct (p ++ b)%string eqn:E; cbn [contains];
        rewrite <- E, prefix_append; reflexivity.
    + cbn [append contains].
      destruct (prefix p (String c (a ++ p ++ b))); [reflexivity|].
      exact IH.
Qed.

Lemma lstrip_suffix (s : string) : exists l, s = (l ++ lstrip s)%string.
Proof.
  induction s as [|c s [l IH]]; [now exists ""|]. cbn.
  destruct (is_space c); [|now exists ""].
  exists (String c l). cbn. now rewrite <- IH.
Qed.

Lemma rstrip_prefix (s : string) : exists r, s = (rstrip s ++ r)%string.
Proof.
  induction s as [|c s [r IH]]; [now exists ""|]. cbn.
  destruct (rstrip s) as [|d t] eqn:E.
  - destruct (is_space c).
    + now exists (String c s).
    + exists r. cbn in *. congruence.
  - exists r. cbn in *. congruence.
Qed.

Lemma strip_infix (s : string) :
  exists l r, s = (l ++ strip s ++ r)%string.
Proof.
  destruct (lstrip_suffix s) as [l Hl].
  destruct (rstrip_prefix (lstrip s)) as [r Hr].
  exists l, r. unfold strip. now rewrite <- Hr.
Qed.

Lemma solid_ends_split (s : string) :
  solid_ends s = true ->
  exists c t d,
    s = String c t /\ is_space c = false
    /\ exists u, s = (u ++ String d "")%string /\ is_space d = false.
Proof.
  unfold solid_ends. destruct s as [|c t]; [discriminate|].
  destruct (last_char (String c t)) as [d|] eqn:E; [|discriminate].
  intros H. apply andb_true_iff in H as [Hc Hd].
  apply negb_true_iff in Hc, Hd.
  exists c, t, d. split; [reflexivity|]. split; [exact Hc|].
  assert (K : forall s d, last_char s = Some d ->
                          exists u, s = (u ++ String d "")%string).
  { clear. induction s as [|c s IH]; [discriminate|]. intros d H.
    cbn in H. destruct s as [|c' s'].
    - injection H as <-. now exists "".
    - destruct (IH _ H) as [u ->]. now exists (String c u). }
  destruct (K _ _ E) as [u Hu]. exists u. split; [exact Hu | exact Hd].
Qed.

Lemma lstrip_keeps (pre kw post : string) (c : ascii) (t : string) :
  kw = String c t -> is_space c = false ->
  exists pre', lstrip (pre ++ kw ++ post) = (pre' ++ kw ++ post)%string.
Proof.
  intros -> Hc. induction pre as [|d pre [pre' IH]].
  - exists "". cbn. now rewrite Hc.
  - cbn. destruct (is_space d); [now exists pre'|].
    now exists (String d pre).
Qed.

Lemma strip_keeps (pre kw post : string) :
  solid_ends kw = true ->
  exists pre' post',
    strip (pre ++ kw ++ post) = (pre' ++ kw ++ post')%string.
Proof.
  intros H.
  destruct (solid_ends_split _ H) as (c & t & d & E1 & Hc & u & E2 & Hd).
  destruct (lstrip_keeps pre kw post c t E1 Hc) as [pre' Hl].
  exists pre', (rstrip post). unfold strip. rewrite Hl.
  clear E1 Hl H. subst kw.
  rewrite !append_assoc. cbn [append].
  rewrite <- !append_assoc. now apply StripFacts.rstrip_after.
Qed.

Lemma last_char_lower (s : string) :
  last_char (lower s) = option_map lower_char (last_char s).
Proof.
  induction s as [|c s IH]; [reflexivity|]. cbn.
  destruct s as [|d s]; [reflexivity|]. exact IH.
Qed.

Lemma solid_ends_lower (s : string) : solid_ends (lower s) = solid_ends s.
Proof.
  destruct s as [|c s]; [reflexivity|].
  pose proof (last_char_lower (String c s)) as L.
  unfold solid_ends. cbn [lower] in L |- *. rewrite L.
  destruct (last_char (String c s)) as [d|]; [|reflexivity].
  cbn [option_map]. now rewrite !lower_char_space.
Qed.

Lemma cues_solid (cue : string) :
  In cue followup_phrases -> solid_ends cue = true.
Proof.
  intros H.
  assert (A : forallb solid_ends followup_phrases = true) by reflexivity.
  rewrite forallb_forall in A. exact (A _ H).
Qed.

End FollowupFacts.

(** X18: [_is_followup] answers [True] exactly for the questions that
    contain one of its nineteen cue phrases, letter case disregarded;
    surrounding whitespace plays no role, and the cue may be part of a
    longer word. *)
Theorem followup_iff_contains_cue :
  forall question : string,
    _is_followup question = true
    <-> exists cue, In cue followup_phrases /\ occurs_ci cue question.
Proof.
  intros question. unfold _is_followup. rewrite existsb_exists.
  split.
  - intros (cue & Hin & Hc). exists cue. split; [exact Hin|].
    apply FollowupFacts.contains_split in Hc as (a & b & Hc).
    apply CharFacts.lower_app_inv in Hc as (a' & rest & Hs & _ & Hrest).
    apply CharFacts.lower_app_inv in Hrest as (kw & b' & -> & Hkw & _).
    destruct (FollowupFacts.strip_infix question) as (l & r & Hq).
    rewrite Hs in Hq.
    exists (l ++ a')%string, kw, (b' ++ r)%string. split; [|exact Hkw].
    rewrite Hq. now rewrite !TextFacts.append_assoc.
  - intros (cue & Hin & pre & kw & post & -> & Hkw). exists cue.
    split; [exact Hin|].
    assert (Hsolid : solid_ends kw = true).
    { rewrite <- FollowupFacts.solid_ends_lower, Hkw.
      now apply FollowupFacts.cues_solid. }
    destruct (FollowupFacts.strip_keeps pre kw post Hsolid)
      as (pre' & post' & ->).
    rewrite !CharFacts.lower_app, Hkw.
    apply FollowupFacts.contains_split. eauto.
Qed.

(** ** The retrieval query, continued *)

Module WindowFacts.
Import Text TextFacts.

Lemma slice_window {A : Type} (m : Z) (h : list A) :
  slice_from (- m) h = window m h.
Proof.
  unfold window. destruct (1 <=? m)%Z eqn:E.
  - apply Z.leb_le in E. now apply StripFacts.slice_last.
  - apply Z.leb_gt in E. unfold slice_from.
    replace (- m <? 0)%Z with false by (symmetry; apply Z.ltb_ge; lia).
    destruct (Z_le_gt_dec (- m) (Z.of_nat (length h))) as [H|H].
    + now rewrite Z.min_l.
    + rewrite Z.min_r by lia. rewrite Nat2Z.id.
      rewrite !skipn_all2; [reflexivity | lia | lia].
Qed.

Lemma window_length {A : Type} (m : Z) (h : list A) :
  length (window m h)
  = if (1 <=? m)%Z then Nat.min (Z.to_nat m) (length h)
    else length h - Z.to_nat (- m).
Proof.
  unfold window, last_n. destruct (1 <=? m)%Z; rewrite length_skipn; lia.
Qed.

Lemma query_with_window (self : QueryProcessor) (question : string)
  (max_messages : Z) (h : list Turn) :
  history self = Some h -> h <> [] ->
  _build_retrieval_query self question max_messages
  = ("Conversation context:" ++ nl
     ++ Text.join nl (map render_turn (window max_messages h))
     ++ nl ++ nl ++ "Current question:"
     ++ Text.rstrip (nl ++ question))%string.
Proof.
  intros Hh Hne. unfold _build_retrieval_query. rewrite Hh.
  destruct h as [|t h]; [congruence|].
  rewrite slice_window.
  apply (StripFacts.strip_query _ (nl ++ question)).
Qed.

Lemma rstrip_idempotent (s : string) : rstrip (rstrip s) = rstrip s.
Proof.
  induction s as [|c s IH]; [reflexivity|]. cbn [rstrip].
  destruct (rstrip s) as [|d t] eqn:E.
  - destruct (is_space c) eqn:Ec; [reflexivity|]. cbn. now rewrite Ec.
  - cbn [rstrip] in IH |- *. now rewrite IH.
Qed.

End WindowFacts.

(** X19: for every [max_messages], positive or not, and a non-empty
    history, the retrieval query renders the slice
    [history[-max_messages:]]: the last [max_messages] turns when that is
    at least 1 (all of them when the history is shorter), but the history
    without its first [-max_messages] turns when it is zero or negative,
    so a window of 0 renders the whole history. *)
Theorem retrieval_query_window :
  forall (self : QueryProcessor) (question : string) (max_messages : Z)
         (h : list Turn),
    history self = Some h -> h <> [] ->
    _build_retrieval_query self question max_messages
    = ("Conversation context:" ++ nl
       ++ Text.join nl (map render_turn (window max_messages h))
       ++ nl ++ nl ++ "Current question:"
       ++ Text.rstrip (nl ++ question))%string
    /\ length (window max_messages h)
       = if (1 <=? max_messages)%Z
         then Nat.min (Z.to_nat max_messages) (length h)
         else length h - Z.to_nat (- max_messages).
Proof.
  intros self question max_messages h Hh Hne.
  split; [|apply WindowFacts.window_length].
  now apply WindowFacts.query_with_window.
Qed.

Lemma retrieval_query_window_witness :
  let h := [mkTurn "user" "cheap places in Porto";
            mkTurn "assistant" "Two listings match."] in
  history Demo.talking = Some h
  /\ h <> []
  /\ _build_retrieval_query Demo.talking "and the second?" 0%Z
     = _build_retrieval_query Demo.talking "and the second?" 2%Z
  /\ length (window 0%Z h) = 2
  /\ length (window (-1)%Z h) = 1.
Proof.
  cbv zeta.
  assert (Hne : [mkTurn "user" "cheap places in Porto";
                 mkTurn "assistant" "Two listings match."] <> [])
    by discriminate.
  split; [reflexivity|]. split; [exact Hne|].
  destruct (retrieval_query_window Demo.talking "and the second?" 0%Z _
              eq_refl Hne) as [H0 L0].
  destruct (retrieval_query_window Demo.talking "and the second?" 2%Z _
              eq_refl Hne) as [H2 _].
  destruct (retrieval_query_window Demo.talking "and the second?" (-1)%Z _
              eq_refl Hne) as [_ L1].
  split; [rewrite H0, H2; reflexivity|].
  split; [exact L0 | exact L1].
Defined.

(** X20: with a non-empty history the retrieval query begins with
    [Conversation context:] and carries no leading or trailing
    whitespace: stripping it again changes nothing. *)
Theorem retrieval_query_is_trimmed :
  forall (self : QueryProcessor) (question : string) (max_messages : Z),
    truthy_list (history self) = true ->
    let q := _build_retrieval_query self question max_messages in
    Text.strip q = q
    /\ prefix "Conversation context:" q = true.
Proof.
  intros self question max_messages Ht q. subst q.
  destruct (history self) as [[|t h]|] eqn:Hh; try discriminate Ht.
  rewrite (WindowFacts.query_with_window self question max_messages
             (t :: h) Hh) by discriminate.
  split; [|apply prefix_append].
  rewrite StripFacts.strip_query. now rewrite WindowFacts.rstrip_idempotent.
Qed.

Lemma retrieval_query_is_trimmed_witness :
  let q := _build_retrieval_query Demo.talking "  which one?  " 4%Z in
  truthy_list (history Demo.talking) = true
  /\ Text.strip q = q
  /\ prefix "Conversation context:" q = true.
Proof.
  cbv zeta. split; [reflexivity|].
  exact (retrieval_query_is_trimmed Demo.talking "  which one?  " 4%Z
           eq_refl).
Defined.

(** ** Configuration *)

(** X21: [_get_setting] returns the value of the first of its names that
    the settings module defines, whatever that value is, and ignores the
    names after it; it returns the default only when none of the names is
    defined. *)
Theorem get_setting_first_defined :
  forall (A : Type) (settings : Settings A) (names : list string)
         (default : A),
    (exists before n after v,
        names = before ++ n :: after
        /\ Forall (fun m => getattr settings m = None) before
        /\ getattr settings n = Some v
        /\ _get_setting settings names default = v)
    \/ (Forall (fun m => getattr settings m = None) names
        /\ _get_setting settings names default = default).
Proof.
  intros A settings names default.
  induction names as [|n names IH]; [right; split; [constructor|reflexivity]|].
  cbn [_get_setting]. destruct (getattr settings n) as [v|] eqn:E.
  - left. exists [], n, names, v. repeat split; [constructor | exact E].
  - destruct IH as [(before & n' & after & v & -> & Hb & Hn & Hv)|[Hall Hd]].
    + left. exists (n :: before), n', after, v.
      repeat split; [now constructor | exact Hn | exact Hv].
    + right. split; [now constructor | exact Hd].
Qed.

(** X22: [_create_mongo_client] raises [ValueError] unless the first
    defined of [MONGODB_URI] and [MongoURI] is a non-empty string, which is
    then the URI of the client.  [MongoURI] counts only when [MONGODB_URI]
    is not defined at all: a [MONGODB_URI] that is [None] or empty is not
    replaced by it. *)
Theorem mongo_client_needs_uri :
  forall settings : Settings (option string),
    match _create_mongo_client settings with
    | Ok client =>
        client_uri client <> ""
        /\ client_server_api client = "1"
        /\ (getattr settings "MONGODB_URI" = Some (Some (client_uri client))
            \/ (getattr settings "MONGODB_URI" = None
                /\ getattr settings "MongoURI"
                   = Some (Some (client_uri client))))
    | Throw e =>
        e = ValueError
        /\ (match getattr settings "MONGODB_URI" with
            | Some v => truthy_str v = None
            | None =>
                match getattr settings "MongoURI" with
                | Some v => truthy_str v = None
                | None => True
                end
            end)
    end.
Proof.
  intros settings. unfold _create_mongo_client. cbn [_get_setting].
  destruct (getattr settings "MONGODB_URI") as [[[|c u]|]|];
    [| | | destruct (getattr settings "MongoURI") as [[[|c u]|]|]];
    cbn; repeat split; auto; discriminate.
Qed.

(** X23: [_get_vector_collection] raises [ValueError] unless both the
    database name and the collection name resolve to non-empty strings;
    when they do, the collection is the one of those names on the given
    client. *)
Theorem vector_collection_needs_names :
  forall (settings : Settings (option string)) (client : MongoClient),
    let db := _get_setting settings ["MONGODB_DB"; "monogo_database"] None in
    let coll := _get_setting settings
                  ["MONGODB_COLLECTION"; "vector_collection"] None in
    match _get_vector_collection settings client with
    | Ok c =>
        coll_client c = client
        /\ db = Some (coll_db c) /\ coll_db c <> ""
        /\ coll = Some (coll_name c) /\ coll_name c <> ""
    | Throw e =>
        e = ValueError /\ (truthy_str db = None \/ truthy_str coll = None)
    end.
Proof.
  intros settings client db coll. subst db coll.
  unfold _get_vector_collection.
  destruct (_get_setting settings ["MONGODB_DB"; "monogo_database"] None)
    as [[|c d]|];
    destruct (_get_setting settings
                ["MONGODB_COLLECTION"; "vector_collection"] None)
      as [[|c' d']|];
    cbn; repeat split; auto; discriminate.
Qed.

(** ** Commands and turns together *)

(** X24: after the [clear] command nothing is left to reuse and no
    conversation is left to enrich the query: the next turn, follow-up or
    not, never opens with a chat call.  Either [extract_filters] raises
    and the turn ends with that [ValueError] before any exchange, or the
    turn opens with a lookup or with the embedding of the question exactly
    as typed. *)
Theorem turn_after_clear_is_fresh :
  forall (dumps : doc -> string) (W : Type) (world : World W) (w : W)
         (self : QueryProcessor) (question : string),
    let r := run world
                 (retrieve_aggregate_facts dumps question None
                                           (clear_session self)) w in
    match trace_of r with
    | [] =>
        extract_filters question = Throw ValueError
        /\ outcome_of r = Raised ValueError (clear_session self)
    | e :: _ =>
        (exists q reply, e = EvFindOne q reply)
        \/ (exists reply, e = EvEmbed (voyage_model self) question reply)
    end.
Proof.
  intros dumps W world w self question r. subst r.
  turn_cases dumps world w (clear_session self) question (@None (list Turn));
    try (match goal with
         | H : reuses _ _ _ = true |- _ => discriminate H
         end);
    try (cbn; eauto; fail).
  destruct (ExtractFacts.extract_filters_throw _ _ H) as [-> _].
  split; [exact H | reflexivity].
Qed.
